(** * Price-comparison app: the price refresh pipeline, the scraper,
    the search-intent analysis and the UI price helpers

  A shallow embedding of the TypeScript sources
  - [functions/update-prices/index.ts]  (refresh job, alert check),
  - [functions/scrape-prices/index.ts]  (per-store scraping loop),
  - [functions/ai-search/index.ts]      (search-intent analysis),
  - [pages/*.tsx]                       (lowest-price helper, alert creation),
  and the properties of them that the specification states.

  JavaScript numbers are IEEE 754 binary64 values: they are modelled by
  Rocq's primitive floats, whose operations are the same correctly
  rounded binary64 operations.  Values that cross a JSON boundary are
  modelled by the [json] tree below. *)

From Stdlib Require Import ZArith Lia List Bool Floats.
From Stdlib Require Uint63.
From stdpp Require Import gmap strings list.

Set Warnings "-register-all,-inexact-float".

Local Open Scope Z_scope.
Local Open Scope list_scope.

(** ** JavaScript numbers *)

Module JSNumber.

Definition number : Type := float.

(** [x === -0] and [x === +0] told apart, as [Math.min] does. *)
Definition is_neg_zero (x : number) : bool := is_zero x && get_sign x.
Definition is_pos_zero (x : number) : bool := is_zero x && negb (get_sign x).

(** ECMAScript [Math.min]: the loop over the arguments, [lowest]
    starting at [+Infinity]; a [NaN] argument makes the result [NaN]. *)
Fixpoint Math_min_from (lowest : number) (xs : list number) : number :=
  match xs with
  | [] => lowest
  | x :: rest =>
      if is_nan x then nan
      else if is_neg_zero x && is_pos_zero lowest then Math_min_from x rest
      else if (x <? lowest)%float then Math_min_from x rest
      else Math_min_from lowest rest
  end.

Definition Math_min (xs : list number) : number := Math_min_from infinity xs.

(** ECMAScript [ToBoolean] on a number: [NaN], [+0] and [-0] are falsy. *)
Definition truthy (x : number) : bool := negb (is_nan x || is_zero x).

End JSNumber.
Export JSNumber.

(** ** JSON values and the JavaScript views of them *)

Module JS.

(** A value that crossed a JSON boundary.  A missing property
    ([undefined]) is the [None] of [option json]. *)
Inductive json : Type :=
| JNull
| JBool (b : bool)
| JNum (n : number)
| JStr (s : string)
| JArr (items : list json)
| JObj (props : list (string * json)).

(** The message of a thrown [Error]. *)
Definition exn : Type := string.

(** Property read [obj.key] on an object given by its members in the
    order they were written: as in [JSON.parse], the last member of a
    name is the one that counts. *)
Fixpoint lookup_prop (key : string) (props : list (string * json)) : option json :=
  match props with
  | [] => None
  | (k, v) :: rest =>
      match lookup_prop key rest with
      | Some later => Some later
      | None => if String.eqb k key then Some v else None
      end
  end.

(** [const { key } = v]: [null] cannot be destructured, a primitive or an
    array has no such property. *)
Definition destructure (key : string) (v : json) : exn + option json :=
  match v with
  | JNull => inl "Cannot destructure property of null"
  | JObj props => inr (lookup_prop key props)
  | _ => inr None
  end.

(** ECMAScript [ToBoolean]. *)
Definition to_boolean (v : option json) : bool :=
  match v with
  | None | Some JNull => false
  | Some (JBool b) => b
  | Some (JNum n) => truthy n
  | Some (JStr s) => negb (String.eqb s "")
  | Some (JArr _) | Some (JObj _) => true
  end.

Definition Array_isArray (v : option json) : option (list json) :=
  match v with
  | Some (JArr items) => Some items
  | _ => None
  end.

(** An array length or a count as a number (exact below [2^53]). *)
Definition number_of_nat (n : nat) : number :=
  PrimFloat.of_uint63 (Uint63.of_Z (Z.of_nat n)).

(** [JSON.stringify] writes a number that is not finite as [null]. *)
Definition json_of_number (n : number) : json :=
  if is_finite n then JNum n else JNull.

(** [arr.slice(0, end)] for an integral [end]: a negative [end] counts
    from the end of the array. *)
Definition slice0 {A : Type} (l : list A) (end_ : Z) : list A :=
  if end_ <? 0 then firstn (Z.to_nat (Z.max (Z.of_nat (length l) + end_) 0)) l
  else firstn (Z.to_nat end_) l.

End JS.
Export JS.

(** ** The world the serverless functions run in *)

Module Runtime.

(** A row of the [price_alerts] table, as the UI writes it. *)
Record PriceAlertRow : Type := {
  alert_id : string;
  user_id : string;
  alert_product_id : string;
  target_price : number;
  is_active : string
}.

(** What was written to the console, one entry per call. *)
Inductive console_entry : Type :=
| ErrorUpdatingProduct (productId : json) (error : exn)
| PriceUpdateError (error : exn)
| SendingNotifications (count : nat)
| PriceAlertLine (productId : json) (newPrice : number) (storeId : string)
| ErrorScrapingStore (store : json) (error : exn)
| ScrapingError (error : exn).

(** [Math.random] is read off an entropy source at a cursor; the console
    grows; the [price_alerts] table is the one shared with the UI. *)
Record World : Type := {
  entropy : nat -> number;
  cursor : nat;
  console : list console_entry;
  price_alerts : list PriceAlertRow
}.

(** Computations that read and write the world and may throw. *)
Definition M (A : Type) : Type := World -> (exn + A) * World.

Definition ret {A : Type} (a : A) : M A := fun w => (inr a, w).

Definition throw {A : Type} (e : exn) : M A := fun w => (inl e, w).

Definition bind {A B : Type} (c : M A) (k : A -> M B) : M B :=
  fun w =>
    match c w with
    | (inl e, w') => (inl e, w')
    | (inr a, w') => k a w'
    end.

(** [try { c } catch (error) { handler error }] *)
Definition try_catch {A : Type} (c : M A) (handler : exn -> M A) : M A :=
  fun w =>
    match c w with
    | (inl e, w') => handler e w'
    | (inr a, w') => (inr a, w')
    end.

Definition lift {A : Type} (r : exn + A) : M A :=
  match r with
  | inl e => throw e
  | inr a => ret a
  end.

Definition Math_random : M number :=
  fun w =>
    (inr (entropy w (cursor w)),
     {| entropy := entropy w; cursor := S (cursor w);
        console := console w; price_alerts := price_alerts w |}).

Definition console_write (entry : console_entry) : M unit :=
  fun w =>
    (inr tt,
     {| entropy := entropy w; cursor := cursor w;
        console := console w ++ [entry]; price_alerts := price_alerts w |}).

(** [for (const x of xs) { body }] over an accumulator. *)
Fixpoint for_of {A S : Type} (xs : list A) (body : A -> S -> M S) (acc : S) : M S :=
  match xs with
  | [] => ret acc
  | x :: rest => bind (body x acc) (for_of rest body)
  end.

End Runtime.
Export Runtime.

Notation "'let*' x ':=' c 'in' k" := (bind c (fun x => k))
  (at level 10, x name, c at level 100, k at level 200).
Notation "'run' c 'then' k" := (bind c (fun _ => k))
  (at level 10, c at level 100, k at level 200).

(** An HTTP request as the handlers read it, and their response. *)
Record Request (B : Type) : Type := {
  method : string;
  body : option B       (* [None]: [req.json()] rejects *)
}.
Arguments method {B} _.
Arguments body {B} _.

Definition req_json {B : Type} (req : Request B) : exn + B :=
  match body req with
  | None => inl "Unexpected token in JSON"
  | Some v => inr v
  end.

Record Response : Type := {
  status : Z;
  payload : option json (* [None]: [new Response(null, ...)] *)
}.

Definition json_response (st : Z) (props : list (string * json)) : Response :=
  {| status := st; payload := Some (JObj props) |}.

(** ** functions/update-prices/index.ts *)

Module UpdatePrices.

(** A product identifier is kept as it arrives in the request: the
    handler checks that [productIds] is an array, not what is in it. *)
Record PriceUpdate : Type := {
  productId : json;
  storeId : string;
  oldPrice : number;
  newPrice : number;
  change : number;
  changePercent : number
}.

(** The objects [checkPriceAlerts] pushes. *)
Record Notification : Type := {
  n_productId : json;
  n_storeId : string;
  alertType : string;
  n_oldPrice : number;
  n_newPrice : number;
  savings : number
}.

Definition stores : list string := ["amazon"; "walmart"; "target"; "bestbuy"].

(** The object [updateProductPrices] pushes for a store, from the two
    numbers drawn for the old price and for the relative change. *)
Definition simulated_change (productId : json) (storeId : string)
    (r_old r_change : number) : PriceUpdate :=
  let oldPrice := (r_old * 500 + 100)%float in
  let changePercent := ((r_change - 0.5) * 0.2)%float in
  let newPrice := (oldPrice * (1 + changePercent))%float in
  {| productId := productId;
     storeId := storeId;
     oldPrice := oldPrice;
     newPrice := newPrice;
     change := (newPrice - oldPrice)%float;
     changePercent := (changePercent * 100)%float |}.

(** The body of the loop over [stores] in [updateProductPrices]: with
    probability one in ten a price change is simulated. *)
Definition simulate_store (productId : json) (storeId : string)
    (updates : list PriceUpdate) : M (list PriceUpdate) :=
  let* r := Math_random in
  if (r <? 0.1)%float then
    let* r_old := Math_random in
    let* r_change := Math_random in
    ret (updates ++ [simulated_change productId storeId r_old r_change])
  else ret updates.

Definition updateProductPrices (productId : json) : M (list PriceUpdate) :=
  for_of stores (simulate_store productId) [].

Definition notification_of (update : PriceUpdate) : Notification :=
  {| n_productId := productId update;
     n_storeId := storeId update;
     alertType := "price_drop";
     n_oldPrice := oldPrice update;
     n_newPrice := newPrice update;
     savings := abs (change update) |}.

(** [checkPriceAlerts]: one notification per update whose price dropped
    by more than 10.  The [productId] argument is not read. *)
Definition checkPriceAlerts (productId : json) (updates : list PriceUpdate)
    : list Notification :=
  fold_left
    (fun notifications update =>
       if (change update <? -10)%float
       then notifications ++ [notification_of update]
       else notifications)
    updates [].

Definition sendPriceAlertNotifications (notifications : list Notification) : M unit :=
  run console_write (SendingNotifications (length notifications)) then
  for_of notifications
    (fun notification _ =>
       console_write (PriceAlertLine (n_productId notification)
                        (n_newPrice notification) (n_storeId notification)))
    tt.

(** A [PriceUpdate] as [JSON.stringify] writes it. *)
Definition update_props (u : PriceUpdate) : list (string * json) :=
  [ ("productId", productId u);
    ("storeId", JStr (storeId u));
    ("oldPrice", json_of_number (oldPrice u));
    ("newPrice", json_of_number (newPrice u));
    ("change", json_of_number (change u));
    ("changePercent", json_of_number (changePercent u)) ].

Definition json_of_update (u : PriceUpdate) : json := JObj (update_props u).

(** The body of the success response. *)
Definition summary (productIds : list json) (updates : list PriceUpdate)
    (notifications : list Notification) : list (string * json) :=
  [ ("success", JBool true);
    ("updatedProducts", JNum (number_of_nat (length productIds)));
    ("priceUpdates", JNum (number_of_nat (length updates)));
    ("notifications", JNum (number_of_nat (length notifications)));
    ("updates", JArr (map json_of_update updates)) ].

(** The body of the loop over [productIds], [try]/[catch] included.  The
    arrays are updated in place, so what was pushed before a throw stays:
    the [catch] is written at each of the two awaited calls. *)
Definition refresh_product
    (update_prices : json -> M (list PriceUpdate))
    (check_alerts : json -> list PriceUpdate -> M (list Notification))
    (productId : json) (acc : list PriceUpdate * list Notification)
    : M (list PriceUpdate * list Notification) :=
  let updates := fst acc in
  let notifications := snd acc in
  try_catch
    (let* productUpdates := update_prices productId in
     let updates := updates ++ productUpdates in
     try_catch
       (let* alertNotifications := check_alerts productId productUpdates in
        ret (updates, notifications ++ alertNotifications))
       (fun error =>
          run console_write (ErrorUpdatingProduct productId error) then
          ret (updates, notifications)))
    (fun error =>
       run console_write (ErrorUpdatingProduct productId error) then
       ret (updates, notifications)).

(** The [serve] handler, over the two functions it awaits per product. *)
Definition handle
    (update_prices : json -> M (list PriceUpdate))
    (check_alerts : json -> list PriceUpdate -> M (list Notification))
    (req : Request json) : M Response :=
  if String.eqb (method req) "OPTIONS" then
    ret {| status := 200; payload := None |}
  else
    try_catch
      (if negb (String.eqb (method req) "POST") then
         ret (json_response 405 [("error", JStr "Method not allowed")])
       else
         let* parsed := lift (req_json req) in
         let* productIds := lift (destructure "productIds" parsed) in
         match (if negb (to_boolean productIds) then None
                else Array_isArray productIds) with
         | None =>
             ret (json_response 400 [("error", JStr "Product IDs array is required")])
         | Some ids =>
             let* acc := for_of ids (refresh_product update_prices check_alerts)
                           ([], []) in
             let updates := fst acc in
             let notifications := snd acc in
             run (if (0 <? length notifications)%nat
                  then sendPriceAlertNotifications notifications
                  else ret tt) then
             ret (json_response 200 (summary ids updates notifications))
         end)
      (fun error =>
         run console_write (PriceUpdateError error) then
         ret (json_response 500
                [ ("success", JBool false);
                  ("error", JStr "Failed to update prices");
                  ("details", JStr error) ])).

(** The handler as deployed. *)
Definition serve (req : Request json) : M Response :=
  handle updateProductPrices
         (fun productId updates => ret (checkPriceAlerts productId updates))
         req.

End UpdatePrices.

(** ** Built-ins of the JavaScript host

    The string built-ins whose definition is the ECMAScript standard's and
    not this repository's are taken as an interface: every property below
    holds for any implementation of it. *)

Class StringBuiltins : Type := {
  (** [s.toLowerCase()] *)
  toLowerCase : string -> string;
  (** [encodeURIComponent(s)]; it throws [URIError] on a lone surrogate *)
  encodeURIComponent : string -> exn + string
}.

Class NumberParsing : Type := {
  (** [parseFloat(s)] *)
  parseFloat : string -> number;
  (** [parseInt(s)] *)
  parseInt : string -> number
}.

Class RegExpBuiltins : Type := {
  (** [s.match(/source/i)]: the match array (the whole match, then the
      groups, [None] for a group that took no part), or [None] for [null] *)
  regex_match : string -> string -> option (list (option string))
}.

(** The two string built-ins on ASCII text: [toLowerCase] maps [A]..[Z]
    to [a]..[z]; [encodeURIComponent] keeps the unreserved characters and
    writes every other byte as [%XX]. *)
Module AsciiHost.

Definition lower_ascii (c : Ascii.ascii) : Ascii.ascii :=
  let n := Ascii.nat_of_ascii c in
  if ((65 <=? n) && (n <=? 90))%nat then Ascii.ascii_of_nat (n + 32) else c.

Fixpoint lower (s : string) : string :=
  match s with
  | EmptyString => EmptyString
  | String c rest => String (lower_ascii c) (lower rest)
  end.

Definition unreserved (c : Ascii.ascii) : bool :=
  let n := Ascii.nat_of_ascii c in
  (((65 <=? n) && (n <=? 90)) || ((97 <=? n) && (n <=? 122)) ||
   ((48 <=? n) && (n <=? 57)) ||
   existsb (Nat.eqb n) [45; 95; 46; 33; 126; 42; 39; 40; 41])%nat.

Definition hex_digit (n : nat) : Ascii.ascii :=
  Ascii.ascii_of_nat (if (n <? 10)%nat then 48 + n else 55 + n).

Fixpoint percent_encode (s : string) : string :=
  match s with
  | EmptyString => EmptyString
  | String c rest =>
      if unreserved c then String c (percent_encode rest)
      else
        let n := Ascii.nat_of_ascii c in
        String (Ascii.ascii_of_nat 37)
          (String (hex_digit (n / 16))
             (String (hex_digit (n mod 16)) (percent_encode rest)))
  end.

#[export] Instance ascii_strings : StringBuiltins :=
  {| toLowerCase := lower;
     encodeURIComponent := fun s => inr (percent_encode s) |}.

End AsciiHost.

(** ** functions/scrape-prices/index.ts *)

Module ScrapePrices.

(** [image] is declared optional and never set. *)
Record PriceResult : Type := {
  store : string;
  price : number;
  title : string;
  url : string;
  availability : string;
  shipping : number
}.

(** The request body at its declared type ([maxResults] a whole number);
    the elements of [stores] are left as they arrive, since a scrape of
    one store throws exactly when its element is not a string or the
    product name cannot be encoded. *)
Record ScrapeRequest : Type := {
  productName : option string;
  stores : option (list json);
  maxResults : option Z
}.

Definition default_stores : list json :=
  [JStr "amazon"; JStr "walmart"; JStr "target"; JStr "bestbuy"].

Section WithHost.
Context `{StringBuiltins}.

Definition scrapeAmazon (productName : string) (maxResults : Z) : M (list PriceResult) :=
  let* r := Math_random in
  let* encoded := lift (encodeURIComponent productName) in
  ret (slice0
         [ {| store := "Amazon";
              price := (r * 500 + 100)%float;
              title := productName ++ " - Amazon Choice";
              url := "https://amazon.com/search?k=" ++ encoded;
              availability := "in_stock";
              shipping := 0%float |} ]
         maxResults).

Definition scrapeWalmart (productName : string) (maxResults : Z) : M (list PriceResult) :=
  let* r := Math_random in
  let* encoded := lift (encodeURIComponent productName) in
  ret (slice0
         [ {| store := "Walmart";
              price := (r * 450 + 90)%float;
              title := productName ++ " - Great Value";
              url := "https://walmart.com/search?q=" ++ encoded;
              availability := "in_stock";
              shipping := 5.99%float |} ]
         maxResults).

Definition scrapeTarget (productName : string) (maxResults : Z) : M (list PriceResult) :=
  let* r := Math_random in
  let* encoded := lift (encodeURIComponent productName) in
  ret (slice0
         [ {| store := "Target";
              price := (r * 480 + 95)%float;
              title := productName ++ " - Target Exclusive";
              url := "https://target.com/s?searchTerm=" ++ encoded;
              availability := "in_stock";
              shipping := 0%float |} ]
         maxResults).

Definition scrapeBestBuy (productName : string) (maxResults : Z) : M (list PriceResult) :=
  let* r := Math_random in
  let* encoded := lift (encodeURIComponent productName) in
  ret (slice0
         [ {| store := "Best Buy";
              price := (r * 520 + 110)%float;
              title := productName ++ " - Best Buy Exclusive";
              url := "https://bestbuy.com/site/searchpage.jsp?st=" ++ encoded;
              availability := "in_stock";
              shipping := 0%float |} ]
         maxResults).

(** [store.toLowerCase()] is a [TypeError] when [store] is not a string. *)
Definition scrapeStore (store : json) (productName : string) (maxResults : Z)
    : M (list PriceResult) :=
  match store with
  | JStr s =>
      let lower := toLowerCase s in
      if String.eqb lower "amazon" then scrapeAmazon productName maxResults
      else if String.eqb lower "walmart" then scrapeWalmart productName maxResults
      else if String.eqb lower "target" then scrapeTarget productName maxResults
      else if String.eqb lower "bestbuy" then scrapeBestBuy productName maxResults
      else ret []
  | _ => throw "store.toLowerCase is not a function"
  end.

End WithHost.

Definition json_of_result (r : PriceResult) : json :=
  JObj [ ("store", JStr (store r));
         ("price", json_of_number (price r));
         ("title", JStr (title r));
         ("url", JStr (url r));
         ("availability", JStr (availability r));
         ("shipping", json_of_number (shipping r)) ].

(** The body of the loop over [stores], [try]/[catch] included. *)
Definition scrape_one
    (scrape_store : json -> string -> Z -> M (list PriceResult))
    (productName : string) (maxResults : Z)
    (store : json) (results : list PriceResult) : M (list PriceResult) :=
  try_catch
    (let* storeResults := scrape_store store productName maxResults in
     ret (results ++ storeResults))
    (fun error =>
       run console_write (ErrorScrapingStore store error) then
       ret results).

(** The body of the success response. *)
Definition scraped (productName : string) (stores : list json) (maxResults : Z)
    (results : list PriceResult) : list (string * json) :=
  [ ("success", JBool true);
    ("productName", JStr productName);
    ("results",
     JArr (map json_of_result
             (slice0 results (maxResults * Z.of_nat (length stores)))));
    ("totalResults", JNum (number_of_nat (length results))) ].

(** The [serve] handler, over the function it awaits per store. *)
Definition handle
    (scrape_store : json -> string -> Z -> M (list PriceResult))
    (req : Request ScrapeRequest) : M Response :=
  if String.eqb (method req) "OPTIONS" then
    ret {| status := 200; payload := None |}
  else
    try_catch
      (if negb (String.eqb (method req) "POST") then
         ret (json_response 405 [("error", JStr "Method not allowed")])
       else
         let* parsed := lift (req_json req) in
         let stores := default default_stores (stores parsed) in
         let maxResults := default 5 (maxResults parsed) in
         match productName parsed with
         | None | Some EmptyString =>
             ret (json_response 400 [("error", JStr "Product name is required")])
         | Some productName =>
             let* results :=
               for_of stores (scrape_one scrape_store productName maxResults) [] in
             ret (json_response 200 (scraped productName stores maxResults results))
         end)
      (fun error =>
         run console_write (ScrapingError error) then
         ret (json_response 500
                [ ("success", JBool false);
                  ("error", JStr "Failed to scrape prices");
                  ("details", JStr error) ])).

(** The handler as deployed. *)
Definition serve `{StringBuiltins} (req : Request ScrapeRequest) : M Response :=
  handle scrapeStore req.

End ScrapePrices.

(** ** functions/ai-search/index.ts *)

Module AiSearch.

(** [s.startsWith(p)] and [s.includes(p)] on the code units of [s]. *)
Fixpoint starts_with (s p : string) {struct p} : bool :=
  match p, s with
  | EmptyString, _ => true
  | String c p', String d s' => Ascii.eqb c d && starts_with s' p'
  | String _ _, EmptyString => false
  end.

Fixpoint includes (s p : string) : bool :=
  starts_with s p ||
  match s with
  | EmptyString => false
  | String _ s' => includes s' p
  end.

(** [for (const k of keywords) if (query.includes(k)) return k] *)
Fixpoint first_included (query : string) (keywords : list string) : option string :=
  match keywords with
  | [] => None
  | k :: rest => if includes query k then Some k else first_included query rest
  end.

Definition productTypes : list string :=
  [ "phone"; "iphone"; "smartphone"; "mobile";
    "laptop"; "macbook"; "computer"; "pc";
    "headphones"; "earbuds"; "airpods";
    "tablet"; "ipad";
    "watch"; "smartwatch";
    "tv"; "television"; "monitor";
    "camera"; "gaming"; "console" ].

Definition extractProductType (query : string) : string :=
  match first_included query productTypes with
  | Some type => type
  | None => "general"
  end.

Definition brands : list string :=
  [ "apple"; "samsung"; "google"; "microsoft"; "sony"; "lg"; "dell"; "hp";
    "lenovo"; "asus" ].

Definition extractBrand (query : string) : option string :=
  first_included query brands.

Record PriceRange : Type := {
  min : option number;
  max : option number
}.

(** The sources of the five patterns, each matched with the [i] flag. *)
Definition pricePatterns : list string :=
  [ "under \$?(\d+)";
    "below \$?(\d+)";
    "less than \$?(\d+)";
    "\$?(\d+)\s*-\s*\$?(\d+)";
    "between \$?(\d+) and \$?(\d+)" ].

Definition featureKeywords : list string :=
  [ "wireless"; "bluetooth"; "noise cancelling"; "waterproof";
    "fast charging"; "long battery"; "high resolution"; "4k";
    "gaming"; "professional"; "portable"; "lightweight" ].

Definition extractFeatures (query : string) : list string :=
  filter (fun feature => includes query feature = true) featureKeywords.

(** [Object.entries] lists the categories in the order they are written. *)
Definition categories : list (string * list string) :=
  [ ("electronics", ["phone"; "laptop"; "computer"; "tablet"; "tv"; "camera"]);
    ("gaming", ["gaming"; "console"; "xbox"; "playstation"; "nintendo"]);
    ("audio", ["headphones"; "earbuds"; "speaker"; "sound"]);
    ("wearables", ["watch"; "fitness"; "tracker"]) ].

Fixpoint extractCategory_from (query : string)
    (entries : list (string * list string)) : option string :=
  match entries with
  | [] => None
  | (category, keywords) :: rest =>
      match first_included query keywords with
      | Some _ => Some category
      | None => extractCategory_from query rest
      end
  end.

Definition extractCategory (query : string) : option string :=
  extractCategory_from query categories.

Record SearchIntent : Type := {
  productType : string;
  brand : option string;
  priceRange : option PriceRange;
  features : list string;
  category : option string
}.

Section WithHost.
Context `{StringBuiltins} `{NumberParsing} `{RegExpBuiltins}.

(** [parseInt(match[i])]; a missing group reads as [undefined]. *)
Definition parseInt_group (m : list (option string)) (i : nat) : number :=
  match nth i m None with
  | Some digits => parseInt digits
  | None => nan
  end.

(** [match[2]] is truthy: the group is there and is not empty. *)
Definition group_truthy (m : list (option string)) (i : nat) : bool :=
  match nth i m None with
  | Some digits => negb (String.eqb digits "")
  | None => false
  end.

Fixpoint extractPriceRange_from (query : string) (patterns : list string)
    : option PriceRange :=
  match patterns with
  | [] => None
  | pattern :: rest =>
      match regex_match pattern query with
      | Some m =>
          if group_truthy m 2
          then Some {| min := Some (parseInt_group m 1);
                       max := Some (parseInt_group m 2) |}
          else Some {| min := None; max := Some (parseInt_group m 1) |}
      | None => extractPriceRange_from query rest
      end
  end.

Definition extractPriceRange (query : string) : option PriceRange :=
  extractPriceRange_from query pricePatterns.

Definition analyzeSearchIntent (query : string) : SearchIntent :=
  let lowerQuery := toLowerCase query in
  {| productType := extractProductType lowerQuery;
     brand := extractBrand lowerQuery;
     priceRange := extractPriceRange lowerQuery;
     features := extractFeatures lowerQuery;
     category := extractCategory lowerQuery |}.

(** The [searchIntent] object as [JSON.stringify] writes it. *)
Definition json_of_option_string (o : option string) : json :=
  match o with
  | Some s => JStr s
  | None => JNull
  end.

Definition json_of_priceRange (o : option PriceRange) : json :=
  match o with
  | None => JNull
  | Some r =>
      JObj (match min r with
            | Some n => [("min", json_of_number n)]
            | None => []
            end ++
            match max r with
            | Some n => [("max", json_of_number n)]
            | None => []
            end)
  end.

Definition intent_props (intent : SearchIntent) : list (string * json) :=
  [ ("productType", JStr (productType intent));
    ("brand", json_of_option_string (brand intent));
    ("priceRange", json_of_priceRange (priceRange intent));
    ("features", JArr (map JStr (features intent)));
    ("category", json_of_option_string (category intent)) ].

Definition json_of_intent (intent : SearchIntent) : json :=
  JObj (intent_props intent).

End WithHost.

End AiSearch.

(** ** The pages: lowest-price helper, best-price display, alert creation *)

Module Pages.

(** A row of [prices] joined with its store. *)
Record PriceData : Type := {
  product_id : string;
  store_id : string;
  price : number;
  availability : string;
  product_url : string;
  created_at : string;
  store_name : string;
  store_logo_url : string
}.

(** [getLowestPrice], the same in HomePage, SearchResultsPage,
    FavoritesPage and (over [currentPrices]) ProductDetailsPage. *)
Definition getLowestPrice (prices : list PriceData) : option number :=
  if (length prices =? 0)%nat then None
  else Some (Math_min (map price prices)).

(** What a page puts where the best price goes. *)
Inductive rendered : Type :=
| Nothing                         (* nothing is rendered *)
| BareNumber (n : number)         (* React prints a falsy number as it is *)
| BestPrice (n : number)          (* the price, formatted by [toFixed(2)] *)
| NotAvailable.                   (* the text N/A *)

(** [{lowestPrice && (<Badge>Best: $...</Badge>)}] *)
Definition render_and (lowestPrice : option number) : rendered :=
  match lowestPrice with
  | None => Nothing
  | Some n => if truthy n then BestPrice n else BareNumber n
  end.

(** [{lowestPrice ? `$...` : 'N/A'}] *)
Definition render_or_na (lowestPrice : option number) : rendered :=
  match lowestPrice with
  | None => NotAvailable
  | Some n => if truthy n then BestPrice n else NotAvailable
  end.

(** [productPrices[id] || []] *)
Definition prices_of (productPrices : gmap string (list PriceData)) (id : string)
    : list PriceData :=
  default [] (productPrices !! id).

(** The best-price badge of a product card: HomePage, SearchResultsPage
    and FavoritesPage. *)
Definition card_best_price (productPrices : gmap string (list PriceData))
    (id : string) : rendered :=
  render_and (getLowestPrice (prices_of productPrices id)).

(** The lowest-price figure of ProductDetailsPage. *)
Definition details_lowest_price (currentPrices : list PriceData) : rendered :=
  render_or_na (getLowestPrice currentPrices).

Record Product : Type := {
  id : string;
  name : string;
  description : string;
  category : string;
  image_url : string;
  brand : string;
  model : string;
  specifications : string
}.






End Pages.

(** ** More built-ins: [Math.max], [slice], [sort], [a || b] *)

Module JSArrays.

(** ECMAScript [Math.max]: [highest] starts at [-Infinity]. *)
Fixpoint Math_max_from (highest : number) (xs : list number) : number :=
  match xs with
  | [] => highest
  | x :: rest =>
      if is_nan x then nan
      else if is_pos_zero x && is_neg_zero highest then Math_max_from x rest
      else if (highest <? x)%float then Math_max_from x rest
      else Math_max_from highest rest
  end.

Definition Math_max (xs : list number) : number := Math_max_from neg_infinity xs.

(** [v || fallback] for [v] a number or [null]. *)
Definition or_else (v : option number) (fallback : number) : number :=
  match v with
  | Some n => if truthy n then n else fallback
  | None => fallback
  end.


(** [arr.sort(compare)].  The sort is stable, and for a comparator that
    orders its arguments consistently every stable sort gives the same
    array: it is written here as the insertion sort, which puts an
    element before the first one the comparator places after it. *)
Fixpoint insert_by {A : Type} (compare : A -> A -> number) (x : A)
    (sorted : list A) : list A :=
  match sorted with
  | [] => [x]
  | y :: rest =>
      if (0 <? compare y x)%float then x :: y :: rest
      else y :: insert_by compare x rest
  end.

Definition sort_by {A : Type} (compare : A -> A -> number) (l : list A) : list A :=
  fold_left (fun sorted x => insert_by compare x sorted) l [].

(** A string is truthy when it is there and not empty. *)
Definition string_truthy (o : option string) : bool :=
  match o with
  | Some s => negb (String.eqb s "")
  | None => false
  end.

End JSArrays.
Export JSArrays.

(** ** functions/ai-search/index.ts: the matches and the handler *)

Module AiSearchMatches.

Record Product : Type := {
  id : string;
  name : string;
  description : string;
  category : string;
  brand : string
}.

(** A [ProductMatch] is the product's fields with [confidence] and
    [reasons] beside them. *)
Record ProductMatch : Type := {
  product : Product;
  confidence : number;
  reasons : list string
}.

Record SearchRequest : Type := {
  query : option string;
  req_category : option string;
  maxResults : option Z
}.

Definition mockProducts : list Product :=
  [ {| id := "iphone-15-pro";
       name := "iPhone 15 Pro";
       description := "Latest iPhone with A17 Pro chip";
       category := "Electronics";
       brand := "Apple" |};
    {| id := "macbook-air-m3";
       name := "MacBook Air M3";
       description := "13-inch MacBook Air with M3 chip";
       category := "Electronics";
       brand := "Apple" |};
    {| id := "airpods-pro-2";
       name := "AirPods Pro (2nd generation)";
       description := "Active Noise Cancellation wireless earbuds";
       category := "Electronics";
       brand := "Apple" |} ].

Section WithHost.
Context `{StringBuiltins} `{NumberParsing} `{RegExpBuiltins}.

Definition brand_matches (searchIntent : AiSearch.SearchIntent) (p : Product) : bool :=
  match AiSearch.brand searchIntent with
  | Some b => negb (String.eqb b "") && AiSearch.includes (toLowerCase (brand p)) b
  | None => false
  end.

Definition type_matches (searchIntent : AiSearch.SearchIntent) (p : Product) : bool :=
  negb (String.eqb (AiSearch.productType searchIntent) "general") &&
  AiSearch.includes (toLowerCase (name p)) (AiSearch.productType searchIntent).

Definition category_matches (wanted : option string) (p : Product) : bool :=
  match wanted with
  | Some c => negb (String.eqb c "") &&
              String.eqb (toLowerCase (category p)) (toLowerCase c)
  | None => false
  end.

(** The callback of [mockProducts.map]. *)
Definition score (searchIntent : AiSearch.SearchIntent) (wanted : option string)
    (p : Product) : M ProductMatch :=
  let confidence := 0%float in
  let reasons : list string := [] in
  let confidence :=
    if brand_matches searchIntent p then (confidence + 0.4)%float else confidence in
  let reasons :=
    if brand_matches searchIntent p
    then reasons ++ [String.append "Brand match: " (brand p)] else reasons in
  let confidence :=
    if type_matches searchIntent p then (confidence + 0.3)%float else confidence in
  let reasons :=
    if type_matches searchIntent p
    then reasons ++ [String.append "Product type match: "
                       (AiSearch.productType searchIntent)]
    else reasons in
  let confidence :=
    if category_matches wanted p then (confidence + 0.2)%float else confidence in
  let reasons :=
    if category_matches wanted p
    then reasons ++ [String.append "Category match: " (default "" wanted)]
    else reasons in
  let* r := Math_random in
  ret {| product := p;
         confidence := (confidence + r * 0.1)%float;
         reasons := reasons |}.

Definition findProductMatches (searchIntent : AiSearch.SearchIntent)
    (wanted : option string) (maxResults : Z) : M (list ProductMatch) :=
  let* matches :=
    for_of mockProducts
      (fun p scored => let* m := score searchIntent wanted p in ret (scored ++ [m]))
      [] in
  ret (slice0
         (sort_by (fun a b => (confidence b - confidence a)%float)
            (List.filter (fun m => (0.1 <? confidence m)%float) matches))
         maxResults).

Definition json_of_match (m : ProductMatch) : json :=
  JObj [ ("id", JStr (id (product m)));
         ("name", JStr (name (product m)));
         ("description", JStr (description (product m)));
         ("category", JStr (category (product m)));
         ("brand", JStr (brand (product m)));
         ("confidence", json_of_number (confidence m));
         ("reasons", JArr (map JStr (reasons m))) ].

(** The body of the success response. *)
Definition found (query : string) (searchIntent : AiSearch.SearchIntent)
    (matches : list ProductMatch) : list (string * json) :=
  [ ("success", JBool true);
    ("query", JStr query);
    ("searchIntent", AiSearch.json_of_intent searchIntent);
    ("matches", JArr (map json_of_match matches));
    ("totalResults", JNum (number_of_nat (length matches))) ].

(** The [serve] handler; beside the response, the errors it wrote to the
    console with [console.error('AI search error:', error)]. *)
Definition serve (req : Request SearchRequest) : M (Response * list exn) :=
  if String.eqb (method req) "OPTIONS" then
    ret ({| status := 200; payload := None |}, [])
  else
    try_catch
      (if negb (String.eqb (method req) "POST") then
         ret (json_response 405 [("error", JStr "Method not allowed")], [])
       else
         let* parsed := lift (req_json req) in
         match query parsed with
         | None | Some EmptyString =>
             ret (json_response 400 [("error", JStr "Search query is required")], [])
         | Some query =>
             let searchIntent := AiSearch.analyzeSearchIntent query in
             let* matches :=
               findProductMatches searchIntent (req_category parsed)
                 (default 10 (maxResults parsed)) in
             ret (json_response 200 (found query searchIntent matches), [])
         end)
      (fun error =>
         ret (json_response 500
                [ ("success", JBool false);
                  ("error", JStr "Failed to perform AI search");
                  ("details", JStr error) ],
              [error])).

End WithHost.

End AiSearchMatches.

(** ** The pages: price range, price change, filters, favourites *)

Module PageLogic.

Import Pages.

(** [getHighestPrice] of ProductDetailsPage. *)
Definition getHighestPrice (currentPrices : list PriceData) : option number :=
  if (length currentPrices =? 0)%nat then None
  else Some (Math_max (map price currentPrices)).

(** What [getPriceRange] of HomePage returns: the text
    [Price unavailable], one price, or two prices with a dash between,
    each price formatted by [toFixed(2)]. *)
Inductive price_label : Type :=
| PriceUnavailable
| SinglePrice (p : number)
| PriceSpan (lowest highest : number).

Definition getPriceRange (prices : list PriceData) : price_label :=
  if (length prices =? 0)%nat then PriceUnavailable
  else
    let min := Math_min (map price prices) in
    let max := Math_max (map price prices) in
    if (min =? max)%float then SinglePrice min else PriceSpan min max.

(** A point of the price-history chart. *)
Record ChartData : Type := {
  date : string;
  chart_price : number;
  store : string
}.

(** [getPriceChange] of ProductDetailsPage, in percent. *)
Definition getPriceChange (priceHistory : list ChartData) : option number :=
  if (length priceHistory <? 2)%nat then None
  else
    match priceHistory with
    | [] => None
    | first :: _ =>
        let oldest := chart_price first in
        let newest := chart_price (List.last priceHistory first) in
        if negb (truthy oldest) || negb (truthy newest) then None
        else Some ((newest - oldest) / oldest * 100)%float
    end.

(** The state of SearchResultsPage that [getFilteredProducts] reads. *)
Record SearchState : Type := {
  products : list Product;
  productPrices : gmap string (list PriceData);
  selectedStores : list string;
  selectedCategories : list string;
  sortBy : string;
  priceRange_min : string;
  priceRange_max : string
}.

Definition array_includes (l : list string) (x : string) : bool :=
  existsb (String.eqb x) l.

Section WithHost.
Context `{NumberParsing}.

Definition sold_at_selected_store (st : SearchState) (p : Product) : bool :=
  existsb (fun row => array_includes (selectedStores st) (store_id row))
          (prices_of (productPrices st) (id p)).

Definition in_selected_category (st : SearchState) (p : Product) : bool :=
  array_includes (selectedCategories st) (category p).

Definition in_price_range (st : SearchState) (p : Product) : bool :=
  match getLowestPrice (prices_of (productPrices st) (id p)) with
  | None => false
  | Some lowestPrice =>
      if negb (truthy lowestPrice) then false
      else
        let min := if negb (String.eqb (priceRange_min st) "")
                   then parseFloat (priceRange_min st) else 0%float in
        let max := if negb (String.eqb (priceRange_max st) "")
                   then parseFloat (priceRange_max st) else infinity in
        (min <=? lowestPrice)%float && (lowestPrice <=? max)%float
  end.

Definition lowest_or (st : SearchState) (fallback : number) (p : Product) : number :=
  or_else (getLowestPrice (prices_of (productPrices st) (id p))) fallback.

Definition getFilteredProducts (st : SearchState) : list Product :=
  let filtered := products st in
  let filtered :=
    if (0 <? length (selectedStores st))%nat
    then List.filter (sold_at_selected_store st) filtered else filtered in
  let filtered :=
    if (0 <? length (selectedCategories st))%nat
    then List.filter (in_selected_category st) filtered else filtered in
  let filtered :=
    if negb (String.eqb (priceRange_min st) "") ||
       negb (String.eqb (priceRange_max st) "")
    then List.filter (in_price_range st) filtered else filtered in
  if String.eqb (sortBy st) "price_low" then
    sort_by (fun a b => (lowest_or st infinity a - lowest_or st infinity b)%float)
            filtered
  else if String.eqb (sortBy st) "price_high" then
    sort_by (fun a b => (lowest_or st 0 b - lowest_or st 0 a)%float) filtered
  else filtered.

End WithHost.

(** The [onCheckedChange] of a category or store checkbox. *)
Definition toggle_selected (checked : bool) (item : string) (prev : list string)
    : list string :=
  if checked then prev ++ [item]
  else List.filter (fun c => negb (String.eqb c item)) prev.




(** FavoritesPage. *)
Record Favorite : Type := {
  fav_id : string;
  fav_user_id : string;
  fav_product_id : string;
  fav_created_at : string
}.

Inductive FavToast : Type :=
| RemovedFromFavorites
| RemoveFavoriteError.

Record FavoritesState : Type := {
  favorites : list Favorite;
  fav_toasts : list FavToast;
  fav_errors : list exn      (* [console.error('Error removing favorite:', error)] *)
}.

(** [removeFavorite]; [delete_rejects] is the error
    [user_favorites.delete] throws, if it does. *)
Definition removeFavorite (delete_rejects : option exn) (favoriteId : string)
    (st : FavoritesState) : FavoritesState :=
  match delete_rejects with
  | None =>
      {| favorites :=
           List.filter (fun fav => negb (String.eqb (fav_id fav) favoriteId))
                       (favorites st);
         fav_toasts := fav_toasts st ++ [RemovedFromFavorites];
         fav_errors := fav_errors st |}
  | Some error =>
      {| favorites := favorites st;
         fav_toasts := fav_toasts st ++ [RemoveFavoriteError];
         fav_errors := fav_errors st ++ [error] |}
  end.

End PageLogic.

(** The string built-ins on text in which a lone surrogate is written as
    its three bytes ([ED A0..BF xx]): [encodeURIComponent] throws on such
    text and is the percent-encoding otherwise. *)
Module SurrogateHost.




End SurrogateHost.

(** ** Inputs traced by hand: a refresh of three products, draw by draw

    The numbers [Math.random] returns, in the order the job draws them:
    for product [p1] Amazon changes (old price from 0.25, change from 0)
    and Walmart changes (old price from 0.5, change from 0.25), Target
    and Best Buy do not; for [p2] no store changes; for [p3] only Amazon
    changes (old price from 0.5, change from 0.5). *)

Module Scenario.

Import UpdatePrices.

Definition draws : list number :=
  [ 0.05; 0.25; 0;  0.05; 0.5; 0.25;  0.5;  0.5;
    0.5;  0.5;  0.5;  0.5;
    0.05; 0.5; 0.5;  0.5;  0.5;  0.5 ]%float.

(** An active alert of a user on [p1], created with target price 250. *)
Definition alert : PriceAlertRow :=
  {| alert_id := "alert_1";
     user_id := "user_1";
     alert_product_id := "p1";
     target_price := 250%float;
     is_active := "1" |}.

Definition world : World :=
  {| entropy := fun k => nth k draws 0.5%float;
     cursor := 0;
     console := [];
     price_alerts := [alert] |}.

Definition post (productIds : json) : Request json :=
  {| method := "POST"; body := Some (JObj [("productIds", productIds)]) |}.

Definition request : Request json :=
  post (JArr [JStr "p1"; JStr "p2"; JStr "p3"]).

(** What [updateProductPrices] returns for [p1] and for [p3] there. *)
Definition p1_updates : list PriceUpdate :=
  [ simulated_change (JStr "p1") "amazon" 0.25%float 0%float;
    simulated_change (JStr "p1") "walmart" 0.5%float 0.25%float ].

Definition p3_update : PriceUpdate :=
  simulated_change (JStr "p3") "amazon" 0.5%float 0.5%float.

(** A simulated change whose relative change is drawn from 0.625. *)
Definition rounded_update : PriceUpdate :=
  simulated_change (JStr "p3") "amazon" 0.5%float 0.625%float.


(** A price row of [p1] at a store. *)
Definition row (store : string) (p : number) : Pages.PriceData :=
  {| Pages.product_id := "p1"; Pages.store_id := store; Pages.price := p;
     Pages.availability := "in_stock"; Pages.product_url := "";
     Pages.created_at := ""; Pages.store_name := store;
     Pages.store_logo_url := "" |}.

(** A world in which every draw is 0.5, and a scrape request whose
    second store is not a string. *)
Definition calm : World :=
  {| entropy := fun _ => 0.5%float; cursor := 0; console := []; price_alerts := [] |}.

Definition scrape_request : Request ScrapePrices.ScrapeRequest :=
  {| method := "POST";
     body := Some {| ScrapePrices.productName := Some "usb hub";
                     ScrapePrices.stores :=
                       Some [JStr "Amazon"; JNum 5%float; JStr "target"];
                     ScrapePrices.maxResults := None |} |}.

End Scenario.

(** ** Vocabulary of the properties *)

(** [m] is a minimum of the numbers [xs]: it occurs in [xs], no number of
    [xs] is strictly below it, and it is below or equal to every number
    of [xs] as soon as none of them is [NaN] (which compares with
    nothing). *)
Definition minimum_of (m : number) (xs : list number) : Prop :=
  In m xs /\
  Forall (fun p => (p <? m)%float = false) xs /\
  (existsb is_nan xs = false -> Forall (fun p => (m <=? p)%float = true) xs).

(** The world with its [price_alerts] table replaced. *)
Definition set_alerts (table : list PriceAlertRow) (w : World) : World :=
  {| entropy := entropy w; cursor := cursor w; console := console w;
     price_alerts := table |}.

(** A computation that neither reads nor writes the [price_alerts]
    table: run on another table it gives the same result and leaves that
    table as it found it. *)
Definition alerts_untouched {A : Type} (c : M A) : Prop :=
  forall table w, c (set_alerts table w) = (fst (c w), set_alerts table (snd (c w))).


(** What the stores of a batch contribute, in the words of the
    specification: the stores are asked in order; a store whose fetch
    fails contributes no quote (the failure is logged), every other
    store contributes the quotes it returned. *)
Fixpoint collected
    (scrape_store : json -> string -> Z -> M (list ScrapePrices.PriceResult))
    (productName : string) (maxResults : Z) (stores : list json) (w : World)
    : list ScrapePrices.PriceResult * World :=
  match stores with
  | [] => ([], w)
  | store :: rest =>
      match scrape_store store productName maxResults w with
      | (inl error, w1) =>
          collected scrape_store productName maxResults rest
            (snd (console_write (ErrorScrapingStore store error) w1))
      | (inr quotes, w1) =>
          let (more, w2) := collected scrape_store productName maxResults rest w1 in
          (quotes ++ more, w2)
      end
  end.

(** The string [p] occurs in the string [s]. *)
Definition occurs_in (p s : string) : Prop :=
  exists before after, s = String.append before (String.append p after).


(** The updates among [updates] that make a notification. *)
Definition drops (updates : list UpdatePrices.PriceUpdate)
    : list UpdatePrices.PriceUpdate :=
  List.filter (fun u => (UpdatePrices.change u <? -10)%float) updates.


(** The reasons a match gives: one for each of brand, product type and
    category that matched, in this order. *)
Definition reasons_for `{StringBuiltins} (searchIntent : AiSearch.SearchIntent)
    (wanted : option string) (p : AiSearchMatches.Product) : list string :=
  (if AiSearchMatches.brand_matches searchIntent p
   then [String.append "Brand match: " (AiSearchMatches.brand p)] else []) ++
  (if AiSearchMatches.type_matches searchIntent p
   then [String.append "Product type match: " (AiSearch.productType searchIntent)]
   else []) ++
  (if AiSearchMatches.category_matches wanted p
   then [String.append "Category match: " (default "" wanted)] else []).

(** [m] is a maximum of the numbers [xs], as [minimum_of] is a minimum. *)
Definition maximum_of (m : number) (xs : list number) : Prop :=
  In m xs /\
  Forall (fun p => (m <? p)%float = false) xs /\
  (existsb is_nan xs = false -> Forall (fun p => (p <=? m)%float = true) xs).

(** A product passes the filters of the search page that are switched
    on: a store filter when a store is selected, a category filter when a
    category is selected, a price filter when a bound is entered. *)
Definition passes_filters `{NumberParsing} (st : PageLogic.SearchState)
    (p : Pages.Product) : bool :=
  (if (0 <? length (PageLogic.selectedStores st))%nat
   then PageLogic.sold_at_selected_store st p else true) &&
  (if (0 <? length (PageLogic.selectedCategories st))%nat
   then PageLogic.in_selected_category st p else true) &&
  (if negb (String.eqb (PageLogic.priceRange_min st) "") ||
      negb (String.eqb (PageLogic.priceRange_max st) "")
   then PageLogic.in_price_range st p else true).

(** * Properties *)

(** *** Order facts on binary64 values, from the specification of the
      primitive comparisons *)

Section SpecOrder.

Ltac cmp_cases :=
  repeat match goal with
    | |- context [Z.compare ?a ?b] => destruct (Z.compare_spec a b)
    | H : context [Z.compare ?a ?b] |- _ => destruct (Z.compare_spec a b)
    | |- context [Pos.compare_cont Eq ?a ?b] =>
        change (Pos.compare_cont Eq a b) with (Pos.compare a b)
    | H : context [Pos.compare_cont Eq ?a ?b] |- _ =>
        change (Pos.compare_cont Eq a b) with (Pos.compare a b) in H
    | |- context [Pos.compare ?a ?b] => destruct (Pos.compare_spec a b)
    | H : context [Pos.compare ?a ?b] |- _ => destruct (Pos.compare_spec a b)
    end.

Lemma SFleb_trans (x y z : spec_float) :
  SFleb x y = true -> SFleb y z = true -> SFleb x z = true.
Proof.
  unfold SFleb, SFcompare.
  destruct x as [[]|[]| |[] mx ex], y as [[]|[]| |[] my ey],
           z as [[]|[]| |[] mz ez]; simpl; try easy;
    cmp_cases; simpl; try easy; try lia.
Qed.

Lemma SFltb_SFleb (x y : spec_float) : SFltb x y = true -> SFleb x y = true.
Proof. unfold SFltb, SFleb. destruct (SFcompare x y) as [[]|]; easy. Qed.

Lemma SFeqb_SFleb (x y : spec_float) : SFeqb x y = true -> SFleb x y = true.
Proof. unfold SFeqb, SFleb. destruct (SFcompare x y) as [[]|]; easy. Qed.

Lemma SFeqb_sym (x y : spec_float) : SFeqb x y = true -> SFeqb y x = true.
Proof.
  unfold SFeqb, SFcompare.
  destruct x as [[]|[]| |[] mx ex], y as [[]|[]| |[] my ey]; simpl; try easy;
    cmp_cases; simpl; try easy; try lia.
Qed.

Lemma SFleb_total (x y : spec_float) :
  x <> S754_nan -> y <> S754_nan -> SFltb y x = false -> SFleb x y = true.
Proof.
  unfold SFleb, SFltb, SFcompare.
  destruct x as [[]|[]| |[] mx ex], y as [[]|[]| |[] my ey]; simpl; try easy;
    cmp_cases; simpl; try easy; try lia.
Qed.

Lemma SFleb_not_SFltb (x y : spec_float) :
  SFleb x y = true -> SFltb y x = false.
Proof.
  unfold SFleb, SFltb, SFcompare.
  destruct x as [[]|[]| |[] mx ex], y as [[]|[]| |[] my ey]; simpl; try easy;
    cmp_cases; simpl; try easy; try lia.
Qed.

Lemma SFltb_nan_r (x : spec_float) : SFltb x S754_nan = false.
Proof. destruct x as [[]|[]| |[] mx ex]; reflexivity. Qed.

Lemma SFleb_refl (x : spec_float) : x <> S754_nan -> SFleb x x = true.
Proof.
  unfold SFleb, SFcompare.
  destruct x as [[]|[]| |[] mx ex]; simpl; try easy;
    rewrite Z.compare_refl;
    change (Pos.compare_cont Eq mx mx) with (Pos.compare mx mx);
    rewrite Pos.compare_refl; reflexivity.
Qed.

End SpecOrder.

Section FloatOrder.

Lemma is_nan_eq (x : number) : is_nan x = true -> x = nan.
Proof.
  intros H. apply Prim2SF_inj. unfold Prim2SF at 1. rewrite H. reflexivity.
Qed.

Lemma not_nan_Prim2SF (x : number) : is_nan x = false -> Prim2SF x <> S754_nan.
Proof.
  intros H. unfold Prim2SF. rewrite H.
  destruct (is_zero x); [discriminate|].
  destruct (is_infinity x); [discriminate|].
  destruct (Z.frexp x) as [r e].
  destruct (shr_fexp _ _ _ _ _) as [shr e'].
  destruct (shr_m shr); discriminate.
Qed.

Lemma leb_trans (x y z : number) :
  (x <=? y)%float = true -> (y <=? z)%float = true -> (x <=? z)%float = true.
Proof. rewrite !leb_spec. apply SFleb_trans. Qed.

Lemma ltb_leb (x y : number) : (x <? y)%float = true -> (x <=? y)%float = true.
Proof. rewrite ltb_spec, leb_spec. apply SFltb_SFleb. Qed.

Lemma leb_total (x y : number) :
  is_nan x = false -> is_nan y = false ->
  (y <? x)%float = false -> (x <=? y)%float = true.
Proof.
  intros Hx Hy. rewrite ltb_spec, leb_spec.
  apply SFleb_total; now apply not_nan_Prim2SF.
Qed.

Lemma leb_not_ltb (x y : number) :
  (x <=? y)%float = true -> (y <? x)%float = false.
Proof. rewrite ltb_spec, leb_spec. apply SFleb_not_SFltb. Qed.

Lemma ltb_nan_r (x : number) : (x <? nan)%float = false.
Proof. rewrite ltb_spec. apply SFltb_nan_r. Qed.

Lemma leb_refl (x : number) : is_nan x = false -> (x <=? x)%float = true.
Proof. intros H. rewrite leb_spec. now apply SFleb_refl, not_nan_Prim2SF. Qed.

Lemma zeros_leb (x y : number) :
  is_zero x = true -> is_zero y = true -> (x <=? y)%float = true.
Proof.
  unfold is_zero. rewrite !FloatAxioms.eqb_spec, leb_spec. intros Hx Hy.
  apply SFleb_trans with (Prim2SF zero).
  - now apply SFeqb_SFleb.
  - now apply SFeqb_SFleb, SFeqb_sym.
Qed.

End FloatOrder.

(** *** [Math.min] returns a least argument *)

Section MathMin.

Lemma Math_min_from_nan (lowest : number) (xs : list number) :
  existsb is_nan xs = true -> Math_min_from lowest xs = nan.
Proof.
  revert lowest. induction xs as [|x rest IH]; intros lowest; simpl; [easy|].
  destruct (is_nan x); simpl; [easy|]. intros H.
  destruct (is_neg_zero x && is_pos_zero lowest); [now apply IH|].
  destruct (x <? lowest)%float; now apply IH.
Qed.

Lemma Math_min_from_In (lowest : number) (xs : list number) :
  Math_min_from lowest xs = lowest \/ In (Math_min_from lowest xs) xs.
Proof.
  revert lowest. induction xs as [|x rest IH]; intros lowest; simpl; [now left|].
  destruct (is_nan x) eqn:Hx.
  - right. left. now apply is_nan_eq.
  - destruct (is_neg_zero x && is_pos_zero lowest);
      [|destruct (x <? lowest)%float];
      (destruct (IH x) as [->|?] || destruct (IH lowest) as [->|?]); auto.
Qed.

Lemma Math_min_from_le (lowest : number) (xs : list number) :
  is_nan lowest = false ->
  existsb is_nan xs = false ->
  (Math_min_from lowest xs <=? lowest)%float = true /\
  Forall (fun p => (Math_min_from lowest xs <=? p)%float = true) xs.
Proof.
  revert lowest. induction xs as [|x rest IH]; intros lowest Hl; simpl.
  - intros _. split; [now apply leb_refl|constructor].
  - destruct (is_nan x) eqn:Hx; simpl; [easy|]. intros Hrest.
    destruct (is_neg_zero x && is_pos_zero lowest) eqn:Hz.
    + apply andb_prop in Hz as [Hz1 Hz2].
      apply andb_prop in Hz1 as [Hz1 _]. apply andb_prop in Hz2 as [Hz2 _].
      destruct (IH x Hx Hrest) as [Hle Hall]. split; [|constructor]; auto.
      apply leb_trans with x; [exact Hle|now apply zeros_leb].
    + destruct (x <? lowest)%float eqn:Hlt.
      * destruct (IH x Hx Hrest) as [Hle Hall]. split; [|constructor]; auto.
        apply leb_trans with x; [exact Hle|now apply ltb_leb].
      * destruct (IH lowest Hl Hrest) as [Hle Hall]. split; [|constructor]; auto.
        apply leb_trans with lowest; [exact Hle|now apply leb_total].
Qed.

(** The result of [Math.min] on a non-empty argument list is one of the
    arguments, no argument is strictly below it, and when no argument is
    [NaN] it is below or equal to every argument. *)
Lemma Math_min_spec (x : number) (xs : list number) :
  minimum_of (Math_min (x :: xs)) (x :: xs).
Proof.
  unfold minimum_of, Math_min.
  assert (Hin : In (Math_min_from infinity (x :: xs)) (x :: xs)).
  { destruct (Math_min_from_In infinity (x :: xs)) as [He|?]; [|assumption].
    destruct (existsb is_nan (x :: xs)) eqn:Hn.
    - rewrite (Math_min_from_nan _ _ Hn) in He. discriminate.
    - destruct (Math_min_from_le infinity (x :: xs) eq_refl Hn) as [_ Hall].
      rewrite He in Hall |- *. inversion Hall as [|? ? Hx _]; subst.
      apply Bool.orb_false_elim in Hn as [Hnx _].
      left. apply Prim2SF_inj.
      revert Hx. rewrite leb_spec.
      pose proof (not_nan_Prim2SF x Hnx) as Hnn.
      change (Prim2SF infinity) with (S754_infinity false).
      destruct (Prim2SF x) as [[]|[]| |[] mx ex]; simpl; easy. }
  split; [exact Hin|].
  destruct (existsb is_nan (x :: xs)) eqn:Hn.
  - split; [|easy]. rewrite (Math_min_from_nan _ _ Hn).
    apply Forall_forall. intros p _. apply ltb_nan_r.
  - destruct (Math_min_from_le infinity (x :: xs) eq_refl Hn) as [_ Hall].
    split; [|intros _; exact Hall].
    eapply Forall_impl; [exact Hall|]. intros p. apply leb_not_ltb.
Qed.

End MathMin.

(** ** The lowest-price helper and the best-price display *)

Section LowestPrice.

Import Pages.

Lemma getLowestPrice_empty : getLowestPrice [] = None.
Proof. reflexivity. Qed.

Lemma getLowestPrice_cons (p : PriceData) (rest : list PriceData) :
  getLowestPrice (p :: rest) = Some (Math_min (map price (p :: rest))).
Proof. reflexivity. Qed.

Lemma getLowestPrice_minimum (prices : list PriceData) (m : number) :
  getLowestPrice prices = Some m -> minimum_of m (map price prices).
Proof.
  destruct prices as [|p rest]; [discriminate|].
  rewrite getLowestPrice_cons. intros [= <-].
  apply (Math_min_spec (price p) (map price rest)).
Qed.

Lemma render_and_shows (lowest : option number) (n : number) :
  render_and lowest = BestPrice n \/ render_and lowest = BareNumber n ->
  lowest = Some n.
Proof.
  destruct lowest as [m|]; simpl; [|intros [?|?]; discriminate].
  destruct (truthy m); intros [H|H]; congruence.
Qed.

Lemma render_or_na_shows (lowest : option number) (n : number) :
  render_or_na lowest = BestPrice n -> lowest = Some n.
Proof.
  destruct lowest as [m|]; simpl; [|discriminate].
  destruct (truthy m); congruence.
Qed.

(** C10. [getLowestPrice] returns [null] on an empty list of price rows
    and otherwise the minimum of the prices in the list: a price of the
    list that no price of the list is below (and that is below or equal
    to every price of the list when none is [NaN]).  What a product card
    or the details page shows as best price is that minimum of the rows
    loaded for the product; a product with no rows shows no price (the
    card shows nothing, the details page the text N/A), never a default
    number. *)
Theorem getLowestPrice_is_minimum_of_loaded_prices
    (prices : list PriceData)
    (productPrices : gmap string (list PriceData)) (product : string) :
  match prices with
  | [] => getLowestPrice prices = None
  | _ :: _ =>
      exists m, getLowestPrice prices = Some m /\ minimum_of m (map price prices)
  end /\
  match card_best_price productPrices product with
  | BestPrice n | BareNumber n =>
      minimum_of n (map price (prices_of productPrices product))
  | Nothing => True
  | NotAvailable => False
  end /\
  match details_lowest_price prices with
  | BestPrice n => minimum_of n (map price prices)
  | NotAvailable => True
  | Nothing | BareNumber _ => False
  end /\
  match productPrices !! product with
  | None | Some [] => card_best_price productPrices product = Nothing
  | Some (_ :: _) => card_best_price productPrices product <> Nothing
  end /\
  details_lowest_price [] = NotAvailable.
Proof.
  split; [|split; [|split; [|split]]].
  - destruct prices as [|p rest]; [reflexivity|].
    eexists. split; [apply getLowestPrice_cons|].
    apply (Math_min_spec (price p) (map price rest)).
  - unfold card_best_price.
    destruct (render_and _) as [|n|n|] eqn:E; try exact I.
    + apply getLowestPrice_minimum, render_and_shows. now right.
    + apply getLowestPrice_minimum, render_and_shows. now left.
    + destruct (getLowestPrice _) as [m|]; simpl in E; [|discriminate].
      destruct (truthy m); discriminate.
  - unfold details_lowest_price.
    destruct (render_or_na _) as [|n|n|] eqn:E; try exact I.
    + destruct (getLowestPrice _) as [m|]; simpl in E; [|discriminate].
      destruct (truthy m); discriminate.
    + destruct (getLowestPrice _) as [m|]; simpl in E; [|discriminate].
      destruct (truthy m); discriminate.
    + now apply getLowestPrice_minimum, render_or_na_shows.
  - unfold card_best_price, prices_of.
    destruct (productPrices !! product) as [[|p rest]|]; simpl; try reflexivity.
    destruct (truthy _); discriminate.
  - reflexivity.
Qed.

End LowestPrice.

(** ** The runtime: computations that leave the alerts table alone *)

Section Frames.

Lemma set_alerts_same (w : World) : set_alerts (price_alerts w) w = w.
Proof. now destruct w. Qed.

Lemma untouched_ret {A : Type} (a : A) : alerts_untouched (ret a).
Proof. intros table w. reflexivity. Qed.

Lemma untouched_throw {A : Type} (e : exn) : alerts_untouched (@throw A e).
Proof. intros table w. reflexivity. Qed.

Lemma untouched_lift {A : Type} (r : exn + A) : alerts_untouched (lift r).
Proof. destruct r; [apply untouched_throw|apply untouched_ret]. Qed.

Lemma untouched_bind {A B : Type} (c : M A) (k : A -> M B) :
  alerts_untouched c -> (forall a, alerts_untouched (k a)) ->
  alerts_untouched (bind c k).
Proof.
  intros Hc Hk table w. unfold bind. rewrite Hc.
  destruct (c w) as [[e|a] w']; simpl; [reflexivity|]. apply Hk.
Qed.

Lemma untouched_try_catch {A : Type} (c : M A) (handler : exn -> M A) :
  alerts_untouched c -> (forall e, alerts_untouched (handler e)) ->
  alerts_untouched (try_catch c handler).
Proof.
  intros Hc Hh table w. unfold try_catch. rewrite Hc.
  destruct (c w) as [[e|a] w']; simpl; [apply Hh|reflexivity].
Qed.

Lemma untouched_random : alerts_untouched Math_random.
Proof. intros table w. reflexivity. Qed.

Lemma untouched_console_write (entry : console_entry) :
  alerts_untouched (console_write entry).
Proof. intros table w. reflexivity. Qed.

Lemma untouched_for_of {A S : Type} (xs : list A) (body : A -> S -> M S) (acc : S) :
  (forall x s, alerts_untouched (body x s)) ->
  alerts_untouched (for_of xs body acc).
Proof.
  intros Hbody. revert acc.
  induction xs as [|x rest IH]; intros acc; simpl.
  - apply untouched_ret.
  - apply untouched_bind; [apply Hbody|exact IH].
Qed.

Lemma untouched_if {A : Type} (b : bool) (c1 c2 : M A) :
  alerts_untouched c1 -> alerts_untouched c2 ->
  alerts_untouched (if b then c1 else c2).
Proof. now destruct b. Qed.

Lemma untouched_preserves {A : Type} (c : M A) (w : World) :
  alerts_untouched c -> price_alerts (snd (c w)) = price_alerts w.
Proof.
  intros Hc. specialize (Hc (price_alerts w) w).
  rewrite set_alerts_same in Hc. rewrite Hc at 1. reflexivity.
Qed.

Lemma untouched_result {A : Type} (c : M A) (table : list PriceAlertRow) (w : World) :
  alerts_untouched c -> fst (c (set_alerts table w)) = fst (c w).
Proof. intros Hc. now rewrite Hc. Qed.

End Frames.

Create HintDb frames.

#[local] Hint Resolve untouched_ret untouched_throw untouched_lift
  untouched_random untouched_console_write : frames.

(** ** The refresh job ([update-prices]) *)

Section RefreshJob.

Import UpdatePrices.

(** *** The simulated refresh of one product *)

Lemma simulate_store_runs (pid : json) (store : string)
    (updates : list PriceUpdate) (w : World) :
  exists extra w',
    simulate_store pid store updates w = (inr (updates ++ extra), w') /\
    entropy w' = entropy w /\
    Forall (fun u => exists k,
              (entropy w k <? 0.1)%float = true /\
              u = simulated_change pid store (entropy w (S k)) (entropy w (S (S k))))
           extra.
Proof.
  unfold simulate_store, bind, Math_random, ret. simpl.
  destruct (entropy w (cursor w) <? 0.1)%float eqn:Hdraw.
  - eexists [_], _. split; [reflexivity|]. split; [reflexivity|].
    constructor; [|constructor]. exists (cursor w). split; [exact Hdraw|reflexivity].
  - exists []. eexists. rewrite app_nil_r. split; [reflexivity|].
    split; [reflexivity|constructor].
Qed.

Lemma simulate_loop_runs (pid : json) (ss : list string)
    (updates : list PriceUpdate) (w : World) :
  exists extra w',
    for_of ss (simulate_store pid) updates w = (inr (updates ++ extra), w') /\
    entropy w' = entropy w /\
    Forall (fun u => exists k store,
              In store ss /\
              (entropy w k <? 0.1)%float = true /\
              u = simulated_change pid store (entropy w (S k)) (entropy w (S (S k))))
           extra.
Proof.
  revert updates w. induction ss as [|store rest IH]; intros updates w; simpl.
  - exists [], w. rewrite app_nil_r. repeat split. constructor.
  - destruct (simulate_store_runs pid store updates w) as (e1 & w1 & Hrun & He & Hall).
    destruct (IH (updates ++ e1) w1) as (e2 & w2 & Hrest & He2 & Hall2).
    exists (e1 ++ e2), w2. unfold bind. rewrite Hrun, Hrest, <- app_assoc.
    split; [reflexivity|]. split; [congruence|].
    apply Forall_app. split.
    + eapply Forall_impl; [exact Hall|]. intros u (k & Hk & ->).
      exists k, store. auto.
    + rewrite He in Hall2.
      eapply Forall_impl; [exact Hall2|]. intros u (k & s & Hin & Hk & ->).
      exists k, s. auto.
Qed.

(** [updateProductPrices] returns in every world, and each update it
    returns is the simulated change of one store, built from two
    consecutive draws that follow a draw below 0.1. *)
Lemma updateProductPrices_runs (pid : json) (w : World) :
  exists updates w',
    updateProductPrices pid w = (inr updates, w') /\
    Forall (fun u => exists k store,
              In store stores /\
              (entropy w k <? 0.1)%float = true /\
              u = simulated_change pid store (entropy w (S k)) (entropy w (S (S k))))
           updates.
Proof.
  destruct (simulate_loop_runs pid stores [] w) as (extra & w' & Hrun & _ & Hall).
  exists extra, w'. split; [exact Hrun|exact Hall].
Qed.

Lemma untouched_simulate_store (pid : json) (store : string) (updates : list PriceUpdate) :
  alerts_untouched (simulate_store pid store updates).
Proof.
  unfold simulate_store.
  apply untouched_bind; [auto with frames|]. intros r.
  apply untouched_if; [|auto with frames].
  repeat (apply untouched_bind; [auto with frames|]; intros ?).
  auto with frames.
Qed.

Lemma untouched_updateProductPrices (pid : json) :
  alerts_untouched (updateProductPrices pid).
Proof. apply untouched_for_of. intros. apply untouched_simulate_store. Qed.

(** *** The alert check *)

Lemma checkPriceAlerts_fold (updates : list PriceUpdate) (acc : list Notification) :
  fold_left
    (fun notifications update =>
       if (change update <? -10)%float
       then notifications ++ [notification_of update]
       else notifications)
    updates acc
  = acc ++ map notification_of
             (List.filter (fun u => (change u <? -10)%float) updates).
Proof.
  revert acc. induction updates as [|u rest IH]; intros acc; simpl.
  - now rewrite app_nil_r.
  - rewrite IH. destruct (change u <? -10)%float; simpl; [|reflexivity].
    now rewrite <- app_assoc.
Qed.

Lemma checkPriceAlerts_filter (pid : json) (updates : list PriceUpdate) :
  checkPriceAlerts pid updates
  = map notification_of (List.filter (fun u => (change u <? -10)%float) updates).
Proof. unfold checkPriceAlerts. now rewrite checkPriceAlerts_fold. Qed.


Lemma untouched_sendPriceAlertNotifications (notifications : list Notification) :
  alerts_untouched (sendPriceAlertNotifications notifications).
Proof.
  unfold sendPriceAlertNotifications.
  apply untouched_bind; [auto with frames|]. intros _.
  apply untouched_for_of. auto with frames.
Qed.

(** *** The loop over the requested products *)



Lemma untouched_refresh_product
    (update_prices : json -> M (list PriceUpdate))
    (check_alerts : json -> list PriceUpdate -> M (list Notification))
    (pid : json) (acc : list PriceUpdate * list Notification) :
  (forall p, alerts_untouched (update_prices p)) ->
  (forall p us, alerts_untouched (check_alerts p us)) ->
  alerts_untouched (refresh_product update_prices check_alerts pid acc).
Proof.
  intros Hu Hc. unfold refresh_product.
  apply untouched_try_catch.
  - apply untouched_bind; [apply Hu|]. intros pu.
    apply untouched_try_catch.
    + apply untouched_bind; [apply Hc|]. auto with frames.
    + intros e. apply untouched_bind; auto with frames.
  - intros e. apply untouched_bind; auto with frames.
Qed.

Lemma untouched_handle
    (update_prices : json -> M (list PriceUpdate))
    (check_alerts : json -> list PriceUpdate -> M (list Notification))
    (req : Request json) :
  (forall p, alerts_untouched (update_prices p)) ->
  (forall p us, alerts_untouched (check_alerts p us)) ->
  alerts_untouched (handle update_prices check_alerts req).
Proof.
  intros Hu Hc. unfold handle.
  apply untouched_if; [auto with frames|].
  apply untouched_try_catch.
  - apply untouched_if; [auto with frames|].
    apply untouched_bind; [auto with frames|]. intros parsed.
    apply untouched_bind; [auto with frames|]. intros productIds.
    destruct (if negb (to_boolean productIds) then None else Array_isArray productIds)
      as [ids|]; [|auto with frames].
    apply untouched_bind.
    + apply untouched_for_of. intros. now apply untouched_refresh_product.
    + intros acc. apply untouched_bind; [|auto with frames].
      apply untouched_if; [apply untouched_sendPriceAlertNotifications|auto with frames].
  - intros e. apply untouched_bind; auto with frames.
Qed.

Lemma untouched_serve (req : Request json) : alerts_untouched (serve req).
Proof.
  apply untouched_handle.
  - apply untouched_updateProductPrices.
  - auto with frames.
Qed.


End RefreshJob.

(** ** What the refresh job does: the claims on the alert check, the
       summary, the change events and the request *)

Section RefreshJobClaims.

Import UpdatePrices Scenario.


Lemma scenario_response :
  fst (serve request world)
  = inr (json_response 200
           (summary [JStr "p1"; JStr "p2"; JStr "p3"]
                    (p1_updates ++ [p3_update])
                    (checkPriceAlerts (JStr "p1") p1_updates))).
Proof. vm_compute. reflexivity. Qed.

(** C1, as the code has it.  For every product and every sequence of
    price updates, [checkPriceAlerts] emits one notification for each
    update whose price dropped by more than 10 ([change < -10]), in input
    order, each naming the store of its own update and the saving
    [|change|].  No alert and no target price is read: the function is
    given none. *)
Theorem checkPriceAlerts_one_notification_per_drop
    (pid : json) (updates : list PriceUpdate) :
  let drops := List.filter (fun u => (change u <? -10)%float) updates in
  checkPriceAlerts pid updates = map notification_of drops /\
  map n_storeId (checkPriceAlerts pid updates) = map storeId drops /\
  map savings (checkPriceAlerts pid updates) = map (fun u => abs (change u)) drops /\
  length (checkPriceAlerts pid updates) = length drops.
Proof.
  intros drops. rewrite checkPriceAlerts_filter. fold drops.
  rewrite !map_map, length_map. repeat split.
Qed.

(** C1 fails as stated.  The alert on [p1] has target price 250 and the
    refresh of [p1] quotes 202.5 at Amazon and 332.5 at Walmart: the
    minimum, 202.5, is below the target, and the check emits two
    notifications (Amazon and Walmart), not exactly one. *)
Lemma checkPriceAlerts_two_notifications_for_one_alert :
  ~ (length (checkPriceAlerts (JStr "p1") p1_updates) = 1%nat <->
     (Math_min (map newPrice p1_updates) <=? target_price alert)%float = true).
Proof.
  intros [_ H]. specialize (H eq_refl). vm_compute in H. discriminate.
Qed.

(** C2, as the code has it.  The refresh job neither reads nor writes
    the [price_alerts] table: after any request the table is what it was
    before, so an alert that was active stays active, and since the
    alert check is a function of the updates alone, running it again on
    the same updates emits the same notifications again. *)
Theorem refresh_job_leaves_alerts_as_they_are
    (req : Request json) (w : World)
    (notifications : list Notification) (table : list PriceAlertRow) :
  price_alerts (snd (serve req w)) = price_alerts w /\
  price_alerts (snd (sendPriceAlertNotifications notifications w)) = price_alerts w /\
  fst (serve req (set_alerts table w)) = fst (serve req w).
Proof.
  split; [|split].
  - apply untouched_preserves, untouched_serve.
  - apply untouched_preserves, untouched_sendPriceAlertNotifications.
  - apply untouched_result, untouched_serve.
Qed.

(** C2 fails as stated.  The job run on the three products sends two
    notifications for [p1], on which a user has an active alert; after
    the job the alert is still in the table with [is_active = "1"], and
    the check run again on the same updates emits two notifications
    again, not zero. *)
Lemma alert_stays_active_and_fires_again :
  (exists props,
      fst (serve request world) = inr (json_response 200 props) /\
      lookup_prop "notifications" props = Some (JNum 2%float)) /\
  price_alerts (snd (serve request world)) = [alert] /\
  is_active alert = "1" /\
  length (checkPriceAlerts (JStr "p1") p1_updates) = 2%nat.
Proof.
  split; [|split; [|split]].
  - eexists. split; [apply scenario_response|]. vm_compute. reflexivity.
  - vm_compute. reflexivity.
  - reflexivity.
  - vm_compute. reflexivity.
Qed.




End RefreshJobClaims.

Section ChangeEvents.

Import UpdatePrices Scenario.

Lemma update_props_keys (u : PriceUpdate) :
  map fst (update_props u)
  = ["productId"; "storeId"; "oldPrice"; "newPrice"; "change"; "changePercent"].
Proof. reflexivity. Qed.

Lemma scenario_p3_in_response :
  exists props updates,
    fst (serve request world) = inr (json_response 200 props) /\
    lookup_prop "updates" props = Some (JArr updates) /\
    In (json_of_update p3_update) updates.
Proof.
  eexists. eexists. split; [apply scenario_response|].
  split; [reflexivity|]. vm_compute. auto.
Qed.



(** C5, as the code has it.  Every update [updateProductPrices] returns
    has [change = newPrice - oldPrice]; its [changePercent] is not
    computed by a division but is 100 times the relative change [c] that
    was drawn first and from which the new price was derived
    ([newPrice = oldPrice * (1 + c)]), so there is no division to guard;
    and no classification is computed. *)
Theorem price_update_change_and_percent (pid : json) (w : World) :
  exists updates w',
    updateProductPrices pid w = (inr updates, w') /\
    Forall (fun u =>
              change u = (newPrice u - oldPrice u)%float /\
              (exists k,
                  let c := ((entropy w k - 0.5) * 0.2)%float in
                  changePercent u = (c * 100)%float /\
                  newPrice u = (oldPrice u * (1 + c))%float) /\
              lookup_prop "classification" (update_props u) = None)
           updates.
Proof.
  destruct (updateProductPrices_runs pid w) as (updates & w' & Hrun & Hall).
  exists updates, w'. split; [exact Hrun|].
  eapply Forall_impl; [exact Hall|].
  intros u (k & store & _ & _ & ->). split; [|split]; try reflexivity.
  exists (S (S k)). split; reflexivity.
Qed.

(** C5 fails as stated.  The update of [p3] in the response of the job
    has [change = 0] and is not classified [unchanged] (it has no
    classification); and for the update whose relative change is drawn
    from 0.625, [changePercent] is 2.5 while
    [change / oldPrice * 100] is 2.499999999999984. *)
Lemma unchanged_price_is_not_classified :
  (exists props updates,
      fst (serve request world) = inr (json_response 200 props) /\
      lookup_prop "updates" props = Some (JArr updates) /\
      In (json_of_update p3_update) updates) /\
  change p3_update = 0%float /\
  lookup_prop "classification" (update_props p3_update) <> Some (JStr "unchanged") /\
  changePercent rounded_update = 2.5%float /\
  (change rounded_update / oldPrice rounded_update * 100)%float
    = 2.499999999999984%float /\
  changePercent rounded_update
    <> (change rounded_update / oldPrice rounded_update * 100)%float.
Proof.
  split; [apply scenario_p3_in_response|].
  split; [vm_compute; reflexivity|].
  split; [vm_compute; discriminate|].
  split; [vm_compute; reflexivity|].
  split; [vm_compute; reflexivity|].
  intros H.
  assert (E : (changePercent rounded_update
               =? change rounded_update / oldPrice rounded_update * 100)%float = true).
  { rewrite <- H. vm_compute. reflexivity. }
  vm_compute in E. discriminate.
Qed.

End ChangeEvents.

Section TriggerRequest.

Import UpdatePrices Scenario.




End TriggerRequest.

(** ** Failures of single stores and single products are contained *)

Section StoreFailures.

Import ScrapePrices.

Variable scrape_store : json -> string -> Z -> M (list PriceResult).
Variable productName : string.
Variable maxResults : Z.

Lemma scrape_loop_collects (stores : list json) (acc : list PriceResult) (w : World) :
  for_of stores (scrape_one scrape_store productName maxResults) acc w
  = (inr (acc ++ fst (collected scrape_store productName maxResults stores w)),
     snd (collected scrape_store productName maxResults stores w)).
Proof.
  revert acc w. induction stores as [|store rest IH]; intros acc w; simpl.
  - now rewrite app_nil_r.
  - unfold bind, scrape_one at 1, try_catch, bind.
    destruct (scrape_store store productName maxResults w) as [[e|quotes] w1]; simpl.
    + apply IH.
    + rewrite IH.
      destruct (collected scrape_store productName maxResults rest w1) as [more w2].
      simpl. now rewrite app_assoc.
Qed.




End StoreFailures.

Section DeployedScraper.

Import ScrapePrices.
Context `{StringBuiltins}.

Lemma slice0_singleton {A : Type} (x : A) (n : Z) :
  slice0 [x] n = if 1 <=? n then [x] else [].
Proof.
  unfold slice0. destruct (Z.ltb_spec n 0), (Z.leb_spec 1 n); try lia.
  - change (length [x]) with 1%nat.
    replace (Z.to_nat (Z.max (Z.of_nat 1 + n) 0)) with 0%nat by lia. reflexivity.
  - destruct (Z.to_nat n) as [|[|k]] eqn:E; [lia|reflexivity|reflexivity].
  - replace (Z.to_nat n) with 0%nat by lia. reflexivity.
Qed.

Lemma scrapeStore_at_most_one (store : json) (pn : string) (mr : Z)
    (quotes : list PriceResult) (w w1 : World) :
  scrapeStore store pn mr w = (inr quotes, w1) ->
  (length quotes <= 1)%nat /\ (mr < 1 -> quotes = []).
Proof.
  assert (Hone : forall (q : PriceResult),
             (length (slice0 [q] mr) <= 1)%nat /\ (mr < 1 -> slice0 [q] mr = [])).
  { intros q. rewrite slice0_singleton. destruct (Z.leb_spec 1 mr); simpl; split;
      auto; lia. }
  unfold scrapeStore. destruct store as [| | |s| |]; try discriminate.
  unfold scrapeAmazon, scrapeWalmart, scrapeTarget, scrapeBestBuy, bind, Math_random,
    lift, ret, throw.
  repeat match goal with
         | |- context [if ?b then _ else _] => destruct b
         end; simpl;
    try (destruct (encodeURIComponent pn); simpl);
    intros [= <- <-]; try apply Hone; simpl; split; auto; lia.
Qed.

Lemma collected_length (pn : string) (mr : Z) (stores : list json) (w : World) :
  (length (fst (collected scrapeStore pn mr stores w)) <= length stores)%nat /\
  (mr < 1 -> fst (collected scrapeStore pn mr stores w) = []).
Proof.
  revert w. induction stores as [|store rest IH]; intros w; simpl.
  - split; [lia|reflexivity].
  - destruct (scrapeStore store pn mr w) as [[e|quotes] w1] eqn:E.
    + destruct (IH (snd (console_write (ErrorScrapingStore store e) w1))) as [Hl Hn].
      split; [apply Nat.le_le_succ_r, Hl|exact Hn].
    + destruct (scrapeStore_at_most_one _ _ _ _ _ _ E) as [Hq Hq0].
      destruct (IH w1) as [Hl Hn].
      destruct (collected scrapeStore pn mr rest w1) as [more w2]. simpl in *.
      rewrite length_app. split; [lia|].
      intros Hmr. now rewrite Hq0, Hn.
Qed.

(** The deployed handler cuts nothing off what the stores contributed. *)
Lemma deployed_results_not_truncated (pn : string) (mr : Z) (stores : list json)
    (w : World) :
  slice0 (fst (collected scrapeStore pn mr stores w)) (mr * Z.of_nat (length stores))
  = fst (collected scrapeStore pn mr stores w).
Proof.
  destruct (collected_length pn mr stores w) as [Hl Hn].
  destruct (Z.lt_ge_cases mr 1) as [Hmr|Hmr].
  - rewrite (Hn Hmr). unfold slice0. destruct (_ <? 0); now rewrite firstn_nil.
  - unfold slice0. destruct (Z.ltb_spec (mr * Z.of_nat (length stores)) 0); [nia|].
    apply firstn_all2. nia.
Qed.

End DeployedScraper.

Section ContainedFailures.

Import ScrapePrices.
Context `{StringBuiltins}.

Lemma handle_scrape_collects
    (scrape_store : json -> string -> Z -> M (list PriceResult))
    (c : Ascii.ascii) (name : string)
    (stores_opt : option (list json)) (mr_opt : option Z) (w : World) :
  handle scrape_store
    {| method := "POST";
       body := Some {| productName := Some (String c name);
                       stores := stores_opt; maxResults := mr_opt |} |} w
  = (inr (json_response 200
            (scraped (String c name) (default default_stores stores_opt)
               (default 5 mr_opt)
               (fst (collected scrape_store (String c name) (default 5 mr_opt)
                       (default default_stores stores_opt) w)))),
     snd (collected scrape_store (String c name) (default 5 mr_opt)
            (default default_stores stores_opt) w)).
Proof.
  unfold handle, req_json, try_catch. simpl. unfold bind at 1. simpl.
  unfold bind at 1. rewrite scrape_loop_collects. reflexivity.
Qed.



End ContainedFailures.

(** ** The search-intent analysis *)

Section SearchIntentAnalysis.

Import AiSearch.

Lemma starts_with_spec (s p : string) :
  starts_with s p = true <-> exists after, s = String.append p after.
Proof.
  revert s. induction p as [|c p IH]; intros s; simpl.
  - split; [intros _; now exists s|reflexivity].
  - destruct s as [|d s]; simpl.
    + split; [discriminate|intros [after Ha]; discriminate].
    + rewrite andb_true_iff, IH, Ascii.eqb_eq. split.
      * intros [-> [after ->]]. now exists after.
      * intros [after [= -> ->]]. split; [reflexivity|now exists after].
Qed.

Lemma includes_spec (s p : string) : includes s p = true <-> occurs_in p s.
Proof.
  unfold occurs_in. induction s as [|d s IH]; simpl.
  - rewrite orb_false_r, starts_with_spec. split.
    + intros [after Ha]. now exists EmptyString, after.
    + intros [[|c before] [after Ha]]; [now exists after|discriminate].
  - rewrite orb_true_iff, starts_with_spec, IH. split.
    + intros [[after Ha]|[before [after Ha]]].
      * now exists EmptyString, after.
      * exists (String d before), after. simpl. now rewrite Ha.
    + intros [[|c before] [after Ha]].
      * left. now exists after.
      * right. injection Ha as -> ->. now exists before, after.
Qed.

Lemma includes_false (s p : string) : includes s p = false <-> ~ occurs_in p s.
Proof. rewrite <- includes_spec. now destruct (includes s p). Qed.

(** The first keyword of the list that occurs in the query, if any. *)
Lemma first_included_spec (query : string) (keywords : list string) :
  match first_included query keywords with
  | Some k =>
      occurs_in k query /\
      exists earlier later,
        keywords = earlier ++ k :: later /\
        Forall (fun k' => ~ occurs_in k' query) earlier
  | None => Forall (fun k' => ~ occurs_in k' query) keywords
  end.
Proof.
  induction keywords as [|k rest IH]; simpl; [constructor|].
  destruct (includes query k) eqn:Hk.
  - split; [now apply includes_spec|]. exists [], rest. split; [reflexivity|constructor].
  - apply includes_false in Hk.
    destruct (first_included query rest) as [k'|].
    + destruct IH as [Hocc (earlier & later & -> & Hnone)]. split; [exact Hocc|].
      exists (k :: earlier), later. split; [reflexivity|now constructor].
    + now constructor.
Qed.

Lemma general_is_no_product_type : ~ In "general" productTypes.
Proof. vm_compute. intuition discriminate. Qed.

Lemma extractProductType_spec (query : string) :
  (occurs_in (extractProductType query) query /\
   exists earlier later,
     productTypes = earlier ++ extractProductType query :: later /\
     Forall (fun k => ~ occurs_in k query) earlier) \/
  (extractProductType query = "general" /\
   Forall (fun k => ~ occurs_in k query) productTypes).
Proof.
  unfold extractProductType.
  pose proof (first_included_spec query productTypes) as Hspec.
  destruct (first_included query productTypes) as [k|]; [left|right]; auto.
Qed.

Context `{StringBuiltins} `{NumberParsing} `{RegExpBuiltins}.

(** C9.  For every query the search-intent analysis returns a record of
    exactly the fields [productType], [brand], [priceRange], [features]
    and [category].  Its [productType] is one of the known product-type
    keywords and occurs in the lower-cased query (it is the first
    keyword of the list that does), or it is the string [general] when
    no known keyword occurs in the lower-cased query. *)
Theorem analyzeSearchIntent_product_type (query : string) :
  let intent := analyzeSearchIntent query in
  let lowerQuery := toLowerCase query in
  map fst (intent_props intent)
    = ["productType"; "brand"; "priceRange"; "features"; "category"] /\
  lookup_prop "productType" (intent_props intent) = Some (JStr (productType intent)) /\
  productType intent = extractProductType lowerQuery /\
  ((In (productType intent) productTypes /\
    occurs_in (productType intent) lowerQuery /\
    exists earlier later,
      productTypes = earlier ++ productType intent :: later /\
      Forall (fun k => ~ occurs_in k lowerQuery) earlier) \/
   (productType intent = "general" /\
    Forall (fun k => ~ occurs_in k lowerQuery) productTypes)).
Proof.
  intros intent lowerQuery.
  split; [reflexivity|]. split; [reflexivity|]. split; [reflexivity|].
  change (productType intent) with (extractProductType lowerQuery).
  destruct (extractProductType_spec lowerQuery)
    as [(Hocc & earlier & later & Heq & Hnone)|[Hgen Hnone]]; [left|right; auto].
  split; [|split; [exact Hocc|eauto]].
  rewrite Heq at 1. apply in_or_app. right. now left.
Qed.

End SearchIntentAnalysis.

Example extractProductType_iphone :
  AiSearch.extractProductType "iphone 15 pro under $900" = "phone".
Proof. reflexivity. Qed.

Example extractProductType_none :
  AiSearch.extractProductType "running shoes" = "general".
Proof. reflexivity. Qed.

(** ** Alerts with a non-positive target price *)

Section AlertThreshold.

Import Pages.



Context `{NumberParsing}.



End AlertThreshold.

(** ** The functions on small inputs *)

Section SmallInputs.

Import Pages Scenario.

Example Math_min_of_three : Math_min [3.5; 2.25; 7]%float = 2.25%float.
Proof. reflexivity. Qed.

Example Math_min_negative_zero : Math_min [0; -0]%float = (-0)%float.
Proof. reflexivity. Qed.

Example Math_min_with_nan : Math_min [1; nan; 0.5]%float = nan.
Proof. reflexivity. Qed.

Example getLowestPrice_of_two_rows :
  getLowestPrice [row "amazon" 120%float; row "walmart" 95%float] = Some 95%float.
Proof. reflexivity. Qed.

Example card_of_product_with_rows :
  card_best_price {[ "p1" := [row "amazon" 120%float; row "walmart" 95%float] ]} "p1"
  = BestPrice 95%float.
Proof. vm_compute. reflexivity. Qed.

Example card_of_product_without_rows :
  card_best_price {[ "p1" := [row "amazon" 120%float] ]} "p2" = Nothing.
Proof. vm_compute. reflexivity. Qed.

Example card_of_free_product :
  card_best_price {[ "p1" := [row "amazon" 0%float; row "walmart" 95%float] ]} "p1"
  = BareNumber 0%float.
Proof. vm_compute. reflexivity. Qed.

Example details_of_free_product :
  details_lowest_price [row "amazon" 0%float; row "walmart" 95%float] = NotAvailable.
Proof. vm_compute. reflexivity. Qed.

Import ScrapePrices AsciiHost Scenario.

(** The second store is not a string: its scrape throws, the error is
    logged, Amazon's and Target's quotes are returned. *)
Example scrape_with_a_failing_store :
  (exists props results,
      fst (serve scrape_request calm) = inr (json_response 200 props) /\
      lookup_prop "results" props = Some (JArr results) /\
      lookup_prop "totalResults" props = Some (JNum 2%float) /\
      map (fun r => match r with
                    | JObj ps => lookup_prop "store" ps
                    | _ => None
                    end) results
      = [Some (JStr "Amazon"); Some (JStr "Target")]) /\
  console (snd (serve scrape_request calm))
  = [ErrorScrapingStore (JNum 5%float) "store.toLowerCase is not a function"].
Proof.
  split; [|vm_compute; reflexivity].
  eexists. eexists. split; [vm_compute; reflexivity|]. vm_compute. auto.
Qed.

End SmallInputs.

(** * More properties of the code *)

(** ** The refresh job: methods, draws, the batch as a whole *)

Ltac cmp_split :=
  repeat match goal with
    | |- context [Z.compare ?a ?b] => destruct (Z.compare_spec a b)
    | H : context [Z.compare ?a ?b] |- _ => destruct (Z.compare_spec a b)
    | |- context [Pos.compare_cont Eq ?a ?b] =>
        change (Pos.compare_cont Eq a b) with (Pos.compare a b)
    | H : context [Pos.compare_cont Eq ?a ?b] |- _ =>
        change (Pos.compare_cont Eq a b) with (Pos.compare a b) in H
    | |- context [Pos.compare ?a ?b] => destruct (Pos.compare_spec a b)
    | H : context [Pos.compare ?a ?b] |- _ => destruct (Pos.compare_spec a b)
    end.

Section RefreshJobMore.

Import UpdatePrices.

Lemma SFabs_below_negative (x : spec_float) (m : positive) (e : Z) :
  SFltb x (S754_finite true m e) = true ->
  SFltb (S754_finite false m e) (SFabs x) = true.
Proof.
  unfold SFltb, SFcompare, SFabs.
  destruct x as [[]|[]| |[] mx ex]; simpl; try easy;
    cmp_split; simpl; try easy; try lia.
Qed.

Lemma abs_of_drop (x : number) :
  (x <? -10)%float = true -> (10 <? abs x)%float = true.
Proof.
  rewrite !ltb_spec, abs_spec.
  change (Prim2SF (-10)%float) with (S754_finite true 5629499534213120 (-49)).
  change (Prim2SF 10%float) with (S754_finite false 5629499534213120 (-49)).
  apply SFabs_below_negative.
Qed.

(** X1.  Every notification of the alert check is a [price_drop] whose
    saving is above 10, and it repeats the store, the product and the two
    prices of an update it was given. *)
Theorem notification_saves_more_than_ten (pid : json) (updates : list PriceUpdate) :
  Forall (fun n =>
            alertType n = "price_drop" /\
            (10 <? savings n)%float = true /\
            exists u, In u updates /\
                      n_productId n = productId u /\ n_storeId n = storeId u /\
                      n_oldPrice n = oldPrice u /\ n_newPrice n = newPrice u /\
                      savings n = abs (change u))
         (checkPriceAlerts pid updates).
Proof.
  rewrite checkPriceAlerts_filter. apply Forall_forall. intros n Hn.
  apply list_elem_of_In, in_map_iff in Hn as (u & <- & Hu).
  apply filter_In in Hu as [Hin Hdrop].
  split; [reflexivity|]. split; [now apply abs_of_drop|].
  exists u. repeat split. exact Hin.
Qed.

End RefreshJobMore.

Section RefreshDraws.

Import UpdatePrices.

Lemma simulate_store_draws (pid : json) (store : string)
    (updates : list PriceUpdate) (w : World) :
  exists extra w',
    simulate_store pid store updates w = (inr (updates ++ extra), w') /\
    (extra = [] \/ exists u, extra = [u] /\ productId u = pid /\ storeId u = store) /\
    cursor w' = (cursor w + 1 + 2 * length extra)%nat /\
    entropy w' = entropy w /\ console w' = console w /\
    price_alerts w' = price_alerts w.
Proof.
  unfold simulate_store, bind, Math_random, ret. simpl.
  destruct (entropy w (cursor w) <? 0.1)%float.
  - eexists [_], _. split; [reflexivity|]. split; [right; eauto|].
    simpl. repeat split. lia.
  - exists []. eexists. rewrite app_nil_r. split; [reflexivity|].
    split; [now left|]. simpl. repeat split. lia.
Qed.

Lemma simulate_loop_draws (pid : json) (ss : list string)
    (updates : list PriceUpdate) (w : World) :
  exists extra w',
    for_of ss (simulate_store pid) updates w = (inr (updates ++ extra), w') /\
    map storeId extra `sublist_of` ss /\
    Forall (fun u => productId u = pid) extra /\
    cursor w' = (cursor w + length ss + 2 * length extra)%nat /\
    entropy w' = entropy w /\ console w' = console w /\
    price_alerts w' = price_alerts w.
Proof.
  revert updates w. induction ss as [|store rest IH]; intros updates w; simpl.
  - exists [], w. rewrite app_nil_r. repeat split; try constructor. simpl. lia.
  - destruct (simulate_store_draws pid store updates w)
      as (e1 & w1 & Hrun & Hshape & Hc & He & Hl & Ha).
    destruct (IH (updates ++ e1) w1) as (e2 & w2 & Hrest & Hsub & Hpid & Hc2 & He2 & Hl2 & Ha2).
    exists (e1 ++ e2), w2. unfold bind. rewrite Hrun, Hrest, <- app_assoc.
    split; [reflexivity|].
    destruct Hshape as [->|(u & -> & Hu & Hs)]; simpl in *.
    + repeat split; try congruence; [now apply sublist_cons|lia].
    + repeat split; try congruence.
      * rewrite Hs. now apply sublist_skip.
      * now constructor.
      * lia.
Qed.

(** X2.  A simulated refresh of one product always returns.  It gives at
    most one update per store, in the order of the store list, each for
    the product asked for; it draws one number per store and two more per
    update ([4 + 2 * updates] draws in all); it writes nothing to the
    console and leaves the alerts table alone. *)
Theorem updateProductPrices_draws_and_order (pid : json) (w : World) :
  exists updates w',
    updateProductPrices pid w = (inr updates, w') /\
    map storeId updates `sublist_of` stores /\
    (length updates <= 4)%nat /\
    Forall (fun u => productId u = pid) updates /\
    cursor w' = (cursor w + 4 + 2 * length updates)%nat /\
    entropy w' = entropy w /\ console w' = console w /\
    price_alerts w' = price_alerts w.
Proof.
  destruct (simulate_loop_draws pid stores [] w)
    as (updates & w' & Hrun & Hsub & Hpid & Hc & He & Hl & Ha).
  exists updates, w'. split; [exact Hrun|]. split; [exact Hsub|].
  split; [|auto].
  apply sublist_length in Hsub. rewrite length_map in Hsub. exact Hsub.
Qed.

End RefreshDraws.

Section RefreshBatch.

Import UpdatePrices.






End RefreshBatch.

(** ** The scraper: request checks, the quotes, the stores *)

Section ScraperMore.

Import ScrapePrices.
Context `{StringBuiltins}.


End ScraperMore.

Section ScraperQuotes.

Import ScrapePrices.
Context `{StringBuiltins}.







End ScraperQuotes.



Section ScraperDefaults.

Import ScrapePrices.
Context `{StringBuiltins}.

(** X7.  A request that names no stores is scraped at the four default
    stores.  When lower-casing leaves their names as they are, the
    product name can be encoded and at least one result is asked for, the
    answer lists exactly four quotes, of Amazon, Walmart, Target and Best
    Buy in this order, priced from four consecutive draws, and nothing is
    written to the console. *)
Theorem scraper_asks_the_four_default_stores
    (c : Ascii.ascii) (name encoded : string) (mr : Z) (w : World) :
  Forall (fun s => toLowerCase s = s) ["amazon"; "walmart"; "target"; "bestbuy"] ->
  encodeURIComponent (String c name) = inr encoded ->
  1 <= mr ->
  exists results w',
    serve {| method := "POST";
             body := Some {| productName := Some (String c name);
                             stores := None; maxResults := Some mr |} |} w
    = (inr (json_response 200
              [ ("success", JBool true);
                ("productName", JStr (String c name));
                ("results", JArr (map json_of_result results));
                ("totalResults", JNum (number_of_nat 4)) ]), w') /\
    map store results = ["Amazon"; "Walmart"; "Target"; "Best Buy"] /\
    map price results
    = [ (entropy w (cursor w) * 500 + 100)%float;
        (entropy w (S (cursor w)) * 450 + 90)%float;
        (entropy w (S (S (cursor w))) * 480 + 95)%float;
        (entropy w (S (S (S (cursor w)))) * 520 + 110)%float ] /\
    cursor w' = (cursor w + 4)%nat /\ console w' = console w.
Proof.
  intros Hlower Henc Hmr.
  inversion Hlower as [|? ? Ha Hl1]; subst. inversion Hl1 as [|? ? Hw Hl2]; subst.
  inversion Hl2 as [|? ? Ht Hl3]; subst. inversion Hl3 as [|? ? Hb _]; subst.
  assert (Hone : (1 <=? mr) = true) by now apply Z.leb_le.
  exists
    [ {| store := "Amazon";
         price := (entropy w (cursor w) * 500 + 100)%float;
         title := String.append (String c name) " - Amazon Choice";
         url := String.append "https://amazon.com/search?k=" encoded;
         availability := "in_stock"; shipping := 0%float |};
      {| store := "Walmart";
         price := (entropy w (S (cursor w)) * 450 + 90)%float;
         title := String.append (String c name) " - Great Value";
         url := String.append "https://walmart.com/search?q=" encoded;
         availability := "in_stock"; shipping := 5.99%float |};
      {| store := "Target";
         price := (entropy w (S (S (cursor w))) * 480 + 95)%float;
         title := String.append (String c name) " - Target Exclusive";
         url := String.append "https://target.com/s?searchTerm=" encoded;
         availability := "in_stock"; shipping := 0%float |};
      {| store := "Best Buy";
         price := (entropy w (S (S (S (cursor w)))) * 520 + 110)%float;
         title := String.append (String c name) " - Best Buy Exclusive";
         url := String.append "https://bestbuy.com/site/searchpage.jsp?st=" encoded;
         availability := "in_stock"; shipping := 0%float |} ].
  eexists. split.
  - unfold serve. rewrite handle_scrape_collects. unfold scraped.
    rewrite deployed_results_not_truncated. simpl default.
    unfold default_stores, collected, scrapeStore.
    rewrite Ha, Hw, Ht, Hb. simpl String.eqb.
    unfold scrapeAmazon, scrapeWalmart, scrapeTarget, scrapeBestBuy,
      bind, Math_random, lift, ret. rewrite Henc. simpl.
    rewrite !slice0_singleton, Hone. simpl. reflexivity.
  - simpl. repeat split. lia.
Qed.

(** X8.  The scraper wants a product name.  A [POST] without one, or
    with the empty one, is answered with status 400 and the error
    [Product name is required], and nothing is scraped, drawn or logged,
    whatever stores it names; a body that cannot be read as JSON is
    answered with status 500 and the error is logged. *)
Theorem scraper_requires_a_product_name
    (scrape_store : json -> string -> Z -> M (list PriceResult))
    (stores_opt : option (list json)) (mr_opt : option Z) (w : World) :
  handle scrape_store
    {| method := "POST";
       body := Some {| productName := None;
                       stores := stores_opt; maxResults := mr_opt |} |} w
  = (inr (json_response 400 [("error", JStr "Product name is required")]), w) /\
  handle scrape_store
    {| method := "POST";
       body := Some {| productName := Some "";
                       stores := stores_opt; maxResults := mr_opt |} |} w
  = (inr (json_response 400 [("error", JStr "Product name is required")]), w) /\
  handle scrape_store {| method := "POST"; body := None |} w
  = (inr (json_response 500
            [ ("success", JBool false);
              ("error", JStr "Failed to scrape prices");
              ("details", JStr "Unexpected token in JSON") ]),
     snd (console_write (ScrapingError "Unexpected token in JSON") w)).
Proof. repeat split. Qed.

End ScraperDefaults.

Lemma scraper_asks_the_four_default_stores_witness :
  exists results w',
    @ScrapePrices.serve AsciiHost.ascii_strings
      {| method := "POST";
         body := Some {| ScrapePrices.productName := Some "usb hub";
                         ScrapePrices.stores := None;
                         ScrapePrices.maxResults := Some 5 |} |} Scenario.calm
    = (inr (json_response 200
              [ ("success", JBool true);
                ("productName", JStr "usb hub");
                ("results", JArr (map ScrapePrices.json_of_result results));
                ("totalResults", JNum (number_of_nat 4)) ]), w') /\
    map ScrapePrices.store results = ["Amazon"; "Walmart"; "Target"; "Best Buy"].
Proof.
  destruct (@scraper_asks_the_four_default_stores AsciiHost.ascii_strings
              (Ascii.ascii_of_nat 117) "sb hub" "usb%20hub" 5 Scenario.calm)
    as (results & w' & Hrun & Hstores & _).
  - repeat constructor.
  - reflexivity.
  - lia.
  - exists results, w'. split; [exact Hrun|exact Hstores].
Defined.

(** ** The search-intent analysis: keywords the extractors can and cannot
       return *)

Section KeywordExtractors.

Import AiSearch.

Lemma string_append_assoc (a b c : string) :
  String.append a (String.append b c) = String.append (String.append a b) c.
Proof.
  induction a as [|x a IH]; [reflexivity|].
  change (String x (String.append a (String.append b c))
          = String x (String.append (String.append a b) c)).
  now rewrite IH.
Qed.

Lemma occurs_in_trans (a b c : string) :
  occurs_in a b -> occurs_in b c -> occurs_in a c.
Proof.
  intros (p1 & s1 & ->) (p2 & s2 & ->).
  exists (String.append p2 p1), (String.append s1 s2).
  now rewrite !string_append_assoc.
Qed.

Lemma includes_longer (q long short : string) :
  includes long short = true -> includes q long = true -> includes q short = true.
Proof.
  rewrite !includes_spec. intros Hs Hl. exact (occurs_in_trans _ _ _ Hs Hl).
Qed.

(** X9.  [extractProductType] never answers [iphone], [smartphone],
    [headphones] or [smartwatch]: each of them contains a keyword that
    stands before it in the list ([phone], [watch]), and that one is
    returned instead. *)
Theorem extractProductType_never_returns_shadowed_keywords (query : string) :
  ~ In (extractProductType query) ["iphone"; "smartphone"; "headphones"; "smartwatch"].
Proof.
  assert (Hshadow : forall long short,
             includes long short = true -> includes query short = false ->
             includes query long = true -> False).
  { intros long short Hs Hq Hl.
    rewrite (includes_longer query long short Hs Hl) in Hq. discriminate. }
  pose proof (Hshadow "iphone" "phone" eq_refl) as H1.
  pose proof (Hshadow "smartphone" "phone" eq_refl) as H2.
  pose proof (Hshadow "headphones" "phone" eq_refl) as H3.
  pose proof (Hshadow "smartwatch" "watch" eq_refl) as H4.
  clear Hshadow.
  unfold extractProductType, productTypes, first_included.
  repeat match goal with
         | |- context [if includes query ?k then _ else _] =>
             let E := fresh "E" in destruct (includes query k) eqn:E
         end;
    simpl; intros [Hin|[Hin|[Hin|[Hin|[]]]]]; try discriminate Hin; auto.
Qed.

End KeywordExtractors.

Section CategoryAndFeatures.

Import AiSearch.

Lemma first_included_none (query : string) (keywords : list string) :
  first_included query keywords = None <->
  Forall (fun k => ~ occurs_in k query) keywords.
Proof.
  induction keywords as [|k rest IH]; simpl.
  - split; [constructor|reflexivity].
  - destruct (includes query k) eqn:Hk.
    + split; [discriminate|]. intros Hall. inversion Hall as [|? ? Hno _]; subst.
      apply includes_spec in Hk. contradiction.
    + rewrite IH. apply includes_false in Hk. split.
      * intros Hall. now constructor.
      * intros Hall. now inversion Hall.
Qed.

Lemma first_included_some (query : string) (keywords : list string) (k : string) :
  first_included query keywords = Some k -> In k keywords /\ occurs_in k query.
Proof.
  induction keywords as [|k' rest IH]; simpl; [discriminate|].
  destruct (includes query k') eqn:Hk.
  - intros [= <-]. split; [now left|now apply includes_spec].
  - intros Hrest. destruct (IH Hrest). split; [now right|assumption].
Qed.

Lemma extractCategory_from_spec (query : string)
    (entries : list (string * list string)) :
  match extractCategory_from query entries with
  | Some c =>
      exists earlier keywords later k,
        entries = earlier ++ (c, keywords) :: later /\
        In k keywords /\ occurs_in k query /\
        Forall (fun entry => Forall (fun k' => ~ occurs_in k' query) (snd entry)) earlier
  | None =>
      Forall (fun entry => Forall (fun k' => ~ occurs_in k' query) (snd entry)) entries
  end.
Proof.
  induction entries as [|[c keywords] rest IH]; simpl; [constructor|].
  destruct (first_included query keywords) as [k|] eqn:Hk.
  - apply first_included_some in Hk as [Hin Hocc].
    exists [], keywords, rest, k. repeat split; auto.
  - apply first_included_none in Hk.
    destruct (extractCategory_from query rest) as [c'|].
    + destruct IH as (earlier & kws & later & k & -> & Hin & Hocc & Hnone).
      exists ((c, keywords) :: earlier), kws, later, k.
      repeat split; auto.
    + now constructor.
Qed.

(** X10.  [extractCategory] answers the first category, in the order
    electronics, gaming, audio, wearables, one of whose keywords occurs
    in the query, and [null] when no keyword of any category occurs.  So
    a query in which [phone] occurs is always [electronics]: a query for
    headphones is never filed under [audio]. *)
Theorem extractCategory_first_category_with_a_keyword (query : string) :
  match extractCategory query with
  | Some c =>
      exists earlier keywords later k,
        categories = earlier ++ (c, keywords) :: later /\
        In k keywords /\ occurs_in k query /\
        Forall (fun entry => Forall (fun k' => ~ occurs_in k' query) (snd entry)) earlier
  | None =>
      Forall (fun entry => Forall (fun k' => ~ occurs_in k' query) (snd entry)) categories
  end /\
  (occurs_in "phone" query -> extractCategory query = Some "electronics") /\
  (occurs_in "headphones" query -> extractCategory query = Some "electronics").
Proof.
  split; [apply extractCategory_from_spec|].
  assert (Hphone : occurs_in "phone" query -> extractCategory query = Some "electronics").
  { intros Hocc. apply includes_spec in Hocc.
    unfold extractCategory, categories, extractCategory_from, first_included.
    now rewrite Hocc. }
  split; [exact Hphone|].
  intros Hocc. apply Hphone. eapply occurs_in_trans; [|exact Hocc].
  now apply includes_spec.
Qed.

(** X11.  [extractFeatures] lists exactly the feature keywords that occur
    in the query, each once and in the order of the keyword list;
    [extractBrand] answers the first brand of its list that occurs in the
    query, and [null] when none does. *)
Theorem extractFeatures_and_extractBrand_keywords (query : string) :
  (forall f, In f (extractFeatures query) <-> In f featureKeywords /\ occurs_in f query) /\
  extractFeatures query `sublist_of` featureKeywords /\
  NoDup (extractFeatures query) /\
  match extractBrand query with
  | Some b =>
      occurs_in b query /\
      exists earlier later,
        brands = earlier ++ b :: later /\
        Forall (fun k => ~ occurs_in k query) earlier
  | None => Forall (fun k => ~ occurs_in k query) brands
  end.
Proof.
  split; [|split; [|split]].
  - intros f. unfold extractFeatures.
    rewrite <- !list_elem_of_In, list_elem_of_filter, includes_spec. tauto.
  - apply sublist_filter.
  - apply NoDup_filter. unfold featureKeywords.
    apply NoDup_ListNoDup. repeat constructor; simpl; intuition discriminate.
  - apply first_included_spec.
Qed.

Context `{StringBuiltins} `{NumberParsing} `{RegExpBuiltins}.

Lemma extractPriceRange_from_spec (query : string) (patterns : list string) :
  match extractPriceRange_from query patterns with
  | Some r =>
      exists earlier pattern later m,
        patterns = earlier ++ pattern :: later /\
        Forall (fun p => regex_match p query = None) earlier /\
        regex_match pattern query = Some m /\
        r = if group_truthy m 2
            then {| min := Some (parseInt_group m 1); max := Some (parseInt_group m 2) |}
            else {| min := None; max := Some (parseInt_group m 1) |}
  | None => Forall (fun p => regex_match p query = None) patterns
  end.
Proof.
  induction patterns as [|pattern rest IH]; simpl; [constructor|].
  destruct (regex_match pattern query) as [m|] eqn:Hm.
  - destruct (group_truthy m 2) eqn:Hg.
    + exists [], pattern, rest, m. rewrite Hg. repeat split; auto.
    + exists [], pattern, rest, m. rewrite Hg. repeat split; auto.
  - destruct (extractPriceRange_from query rest) as [r|].
    + destruct IH as (earlier & p & later & m & -> & Hnone & Hmatch & Hr).
      exists (pattern :: earlier), p, later, m. repeat split; auto.
    + now constructor.
Qed.

(** X12.  [extractPriceRange] answers [null] exactly when none of the
    five patterns matches the query.  Otherwise the answer is read off
    the first pattern that matches: it always has a [max], and it has a
    [min] only when that pattern's second group matched, in which case
    [min] is the first number written and [max] the second. *)
Theorem extractPriceRange_first_pattern_that_matches (query : string) :
  match extractPriceRange query with
  | Some r =>
      max r <> None /\
      exists earlier pattern later m,
        pricePatterns = earlier ++ pattern :: later /\
        Forall (fun p => regex_match p query = None) earlier /\
        regex_match pattern query = Some m /\
        (if group_truthy m 2
         then min r = Some (parseInt_group m 1) /\ max r = Some (parseInt_group m 2)
         else min r = None /\ max r = Some (parseInt_group m 1))
  | None => Forall (fun p => regex_match p query = None) pricePatterns
  end.
Proof.
  unfold extractPriceRange.
  pose proof (extractPriceRange_from_spec query pricePatterns) as Hspec.
  destruct (extractPriceRange_from query pricePatterns) as [r|]; [|exact Hspec].
  destruct Hspec as (earlier & pattern & later & m & Heq & Hnone & Hmatch & Hr).
  split.
  - rewrite Hr. destruct (group_truthy m 2); discriminate.
  - exists earlier, pattern, later, m. repeat split; auto.
    rewrite Hr. destruct (group_truthy m 2); auto.
Qed.

End CategoryAndFeatures.

(** ** [sort] and [slice] rearrange and cut, and nothing else *)

Section SortAndSlice.

Context {A : Type}.

Lemma insert_by_permutation (compare : A -> A -> number) (x : A) (l : list A) :
  Permutation (insert_by compare x l) (x :: l).
Proof.
  induction l as [|y rest IH]; simpl; [reflexivity|].
  destruct (0 <? compare y x)%float; [reflexivity|].
  rewrite IH. apply perm_swap.
Qed.

Lemma sort_fold_permutation (compare : A -> A -> number) (l acc : list A) :
  Permutation (fold_left (fun sorted x => insert_by compare x sorted) l acc) (acc ++ l).
Proof.
  revert acc. induction l as [|x rest IH]; intros acc; simpl.
  - now rewrite app_nil_r.
  - rewrite IH, insert_by_permutation.
    change (x :: acc ++ rest) with ((x :: acc) ++ rest).
    rewrite (Permutation_middle acc rest x). reflexivity.
Qed.

Lemma sort_by_permutation (compare : A -> A -> number) (l : list A) :
  Permutation (sort_by compare l) l.
Proof. unfold sort_by. now rewrite sort_fold_permutation. Qed.

Lemma slice0_sublist (l : list A) (n : Z) : slice0 l n `sublist_of` l.
Proof. unfold slice0. destruct (n <? 0); apply sublist_take. Qed.

Lemma slice0_length (l : list A) (n : Z) :
  0 <= n -> (length (slice0 l n) <= Z.to_nat n)%nat.
Proof.
  intros Hn. unfold slice0. destruct (Z.ltb_spec n 0); [lia|].
  rewrite length_take. lia.
Qed.

Lemma list_filter_sublist (f : A -> bool) (l : list A) :
  List.filter f l `sublist_of` l.
Proof.
  induction l as [|x rest IH]; simpl; [constructor|].
  destruct (f x); [now apply sublist_skip|now apply sublist_cons].
Qed.

Lemma sublist_map {B : Type} (f : A -> B) (l1 l2 : list A) :
  l1 `sublist_of` l2 -> map f l1 `sublist_of` map f l2.
Proof.
  induction 1; simpl; [constructor|now apply sublist_skip|now apply sublist_cons].
Qed.

Lemma sublist_In (l1 l2 : list A) (x : A) :
  l1 `sublist_of` l2 -> In x l1 -> In x l2.
Proof.
  intros Hsub Hin. apply list_elem_of_In. apply list_elem_of_In in Hin.
  eapply sublist_subseteq; eauto.
Qed.

End SortAndSlice.

(** ** The search: the matches and the handler *)

Section SearchMatches.

Import AiSearchMatches.
Context `{StringBuiltins} `{NumberParsing} `{RegExpBuiltins}.

Lemma score_runs (searchIntent : AiSearch.SearchIntent) (wanted : option string)
    (p : Product) (w : World) :
  exists m,
    score searchIntent wanted p w
    = (inr m, {| entropy := entropy w; cursor := S (cursor w);
                 console := console w; price_alerts := price_alerts w |}) /\
    product m = p /\ reasons m = reasons_for searchIntent wanted p.
Proof.
  unfold score, bind, Math_random, ret, reasons_for. eexists. split; [reflexivity|].
  simpl. split; [reflexivity|].
  destruct (brand_matches searchIntent p), (type_matches searchIntent p),
    (category_matches wanted p); reflexivity.
Qed.

Lemma scoring_runs (searchIntent : AiSearch.SearchIntent) (wanted : option string)
    (w : World) :
  exists scored w',
    for_of mockProducts
      (fun p scored => let* m := score searchIntent wanted p in ret (scored ++ [m]))
      [] w = (inr scored, w') /\
    map product scored = mockProducts /\
    Forall (fun m => reasons m = reasons_for searchIntent wanted (product m)) scored /\
    cursor w' = (cursor w + 3)%nat /\ console w' = console w.
Proof.
  unfold mockProducts, for_of. unfold bind at 1 2 3 4 5 6.
  destruct (score_runs searchIntent wanted
              {| id := "iphone-15-pro"; name := "iPhone 15 Pro";
                 description := "Latest iPhone with A17 Pro chip";
                 category := "Electronics"; brand := "Apple" |} w)
    as (m1 & -> & Hp1 & Hr1).
  unfold ret at 1.
  edestruct (score_runs searchIntent wanted
              {| id := "macbook-air-m3"; name := "MacBook Air M3";
                 description := "13-inch MacBook Air with M3 chip";
                 category := "Electronics"; brand := "Apple" |})
    as (m2 & -> & Hp2 & Hr2).
  unfold ret at 1.
  edestruct (score_runs searchIntent wanted
              {| id := "airpods-pro-2"; name := "AirPods Pro (2nd generation)";
                 description := "Active Noise Cancellation wireless earbuds";
                 category := "Electronics"; brand := "Apple" |})
    as (m3 & -> & Hp3 & Hr3).
  unfold ret. eexists. eexists. split; [reflexivity|]. simpl.
  rewrite Hp1, Hp2, Hp3. split; [reflexivity|].
  split; [|split; [lia|reflexivity]].
  repeat constructor; rewrite ?Hp1, ?Hp2, ?Hp3; assumption.
Qed.

(** X13.  [findProductMatches] always returns, after drawing three
    numbers.  It returns at most three matches, and at most [maxResults]
    when that is not negative; every match is one of the three catalogue
    products, each at most once, has a confidence above 0.1, and gives as
    its reasons exactly those of brand, product type and category that
    matched, in this order. *)
Theorem findProductMatches_returns_scored_catalogue_products
    (searchIntent : AiSearch.SearchIntent) (wanted : option string)
    (maxResults : Z) (w : World) :
  exists matches w',
    findProductMatches searchIntent wanted maxResults w = (inr matches, w') /\
    (length matches <= 3)%nat /\
    (0 <= maxResults -> (length matches <= Z.to_nat maxResults)%nat) /\
    NoDup (map (fun m => id (product m)) matches) /\
    Forall (fun m =>
              In (product m) mockProducts /\
              (0.1 <? confidence m)%float = true /\
              reasons m = reasons_for searchIntent wanted (product m))
           matches /\
    cursor w' = (cursor w + 3)%nat /\ console w' = console w.
Proof.
  destruct (scoring_runs searchIntent wanted w)
    as (scored & w' & Hrun & Hproducts & Hreasons & Hcur & Hcon).
  set (kept := List.filter (fun m => (0.1 <? confidence m)%float) scored).
  set (sorted := sort_by (fun a b => (confidence b - confidence a)%float) kept).
  exists (slice0 sorted maxResults), w'.
  assert (Hperm : Permutation sorted kept) by apply sort_by_permutation.
  assert (Hin : forall m, In m (slice0 sorted maxResults) ->
                          In m scored /\ (0.1 <? confidence m)%float = true).
  { intros m Hm. apply (sublist_In _ _ _ (slice0_sublist sorted maxResults)) in Hm.
    apply (Permutation_in _ Hperm) in Hm. now apply filter_In in Hm. }
  split; [|split; [|split; [|split; [|split]]]].
  - unfold findProductMatches. unfold bind at 1. rewrite Hrun. reflexivity.
  - pose proof (sublist_length _ _ (slice0_sublist sorted maxResults)) as Hl1.
    pose proof (Permutation_length Hperm) as Hl2.
    pose proof (sublist_length _ _ (list_filter_sublist
                  (fun m => (0.1 <? confidence m)%float) scored)) as Hl3.
    fold kept in Hl3. apply (f_equal (@length _)) in Hproducts.
    rewrite length_map in Hproducts. simpl in Hproducts. lia.
  - apply slice0_length.
  - eapply sublist_NoDup;
      [|apply sublist_map, slice0_sublist].
    rewrite (Permutation_map _ Hperm).
    eapply sublist_NoDup; [|apply sublist_map, list_filter_sublist].
    replace (map (fun m => id (product m)) scored) with (map id (map product scored))
      by now rewrite map_map.
    rewrite Hproducts. apply NoDup_ListNoDup.
    repeat constructor; simpl; intuition discriminate.
  - apply Forall_forall. intros m Hm. apply list_elem_of_In, Hin in Hm as [Hm Hconf].
    split; [|split; [exact Hconf|]].
    + rewrite <- Hproducts. now apply in_map.
    + rewrite Forall_forall in Hreasons. apply Hreasons. now apply list_elem_of_In.
  - auto.
Qed.



End SearchMatches.

(** ** The three handlers and the HTTP method *)

Section Methods.

Context `{StringBuiltins} `{NumberParsing} `{RegExpBuiltins}.

(** X15.  The three handlers serve [POST] only.  To [OPTIONS] each answers
    with status 200 and no body; to any other method but [POST] with
    status 405 and the error [Method not allowed].  In both cases the
    body of the request is not read, and nothing is drawn, logged or
    refreshed. *)
Theorem handlers_serve_post_only
    (update_prices : json -> M (list UpdatePrices.PriceUpdate))
    (check_alerts : json -> list UpdatePrices.PriceUpdate
                    -> M (list UpdatePrices.Notification))
    (scrape_store : json -> string -> Z -> M (list ScrapePrices.PriceResult))
    (m : string) (refresh : option json)
    (scrape : option ScrapePrices.ScrapeRequest)
    (search : option AiSearchMatches.SearchRequest) (w : World) :
  m <> "POST" ->
  let answer :=
    if String.eqb m "OPTIONS" then {| status := 200; payload := None |}
    else json_response 405 [("error", JStr "Method not allowed")] in
  UpdatePrices.handle update_prices check_alerts {| method := m; body := refresh |} w
  = (inr answer, w) /\
  ScrapePrices.handle scrape_store {| method := m; body := scrape |} w
  = (inr answer, w) /\
  AiSearchMatches.serve {| method := m; body := search |} w
  = (inr (answer, []), w).
Proof.
  intros Hm answer. subst answer. apply String.eqb_neq in Hm.
  unfold UpdatePrices.handle, ScrapePrices.handle, AiSearchMatches.serve, try_catch.
  cbn [method]. rewrite !Hm.
  destruct (String.eqb m "OPTIONS"); repeat split.
Qed.

End Methods.

Lemma handlers_serve_post_only_witness :
  UpdatePrices.serve {| method := "GET"; body := None |} Scenario.world
  = (inr (json_response 405 [("error", JStr "Method not allowed")]), Scenario.world).
Proof.
  refine (proj1 (@handlers_serve_post_only AsciiHost.ascii_strings
                   {| parseFloat := fun _ => nan; parseInt := fun _ => nan |}
                   {| regex_match := fun _ _ => None |}
                   UpdatePrices.updateProductPrices
                   (fun productId updates =>
                      ret (UpdatePrices.checkPriceAlerts productId updates))
                   (@ScrapePrices.scrapeStore AsciiHost.ascii_strings)
                   "GET" None None None Scenario.world _)).
  discriminate.
Defined.

(** ** The pages: highest price, price range, price change *)

Section MathMax.

Lemma SFltb_nan_l (x : spec_float) : SFltb S754_nan x = false.
Proof. reflexivity. Qed.

Lemma ltb_nan_l (x : number) : (nan <? x)%float = false.
Proof. rewrite ltb_spec. apply SFltb_nan_l. Qed.

Lemma SFleb_SFeqb_squeeze (a b c : spec_float) :
  SFleb a b = true -> SFleb b c = true -> SFeqb a c = true -> SFeqb b a = true.
Proof.
  unfold SFleb, SFeqb, SFcompare.
  destruct a as [[]|[]| |[] ma ea], b as [[]|[]| |[] mb eb],
           c as [[]|[]| |[] mc ec]; simpl; try easy;
    cmp_split; simpl; try easy; try lia.
Qed.

Lemma SFleb_not_SFeqb (a b : spec_float) :
  SFleb a b = true -> SFeqb a b = false -> SFltb a b = true.
Proof.
  unfold SFleb, SFeqb, SFltb. destruct (SFcompare a b) as [[]|]; easy.
Qed.

Lemma Math_max_from_nan (highest : number) (xs : list number) :
  existsb is_nan xs = true -> Math_max_from highest xs = nan.
Proof.
  revert highest. induction xs as [|x rest IH]; intros highest; simpl; [easy|].
  destruct (is_nan x); simpl; [easy|]. intros Hn.
  destruct (is_pos_zero x && is_neg_zero highest); [now apply IH|].
  destruct (highest <? x)%float; now apply IH.
Qed.

Lemma Math_max_from_In (highest : number) (xs : list number) :
  Math_max_from highest xs = highest \/ In (Math_max_from highest xs) xs.
Proof.
  revert highest. induction xs as [|x rest IH]; intros highest; simpl; [now left|].
  destruct (is_nan x) eqn:Hx.
  - right. left. now apply is_nan_eq.
  - destruct (is_pos_zero x && is_neg_zero highest);
      [|destruct (highest <? x)%float];
      (destruct (IH x) as [->|?] || destruct (IH highest) as [->|?]); auto.
Qed.

Lemma Math_max_from_ge (highest : number) (xs : list number) :
  is_nan highest = false ->
  existsb is_nan xs = false ->
  (highest <=? Math_max_from highest xs)%float = true /\
  Forall (fun p => (p <=? Math_max_from highest xs)%float = true) xs.
Proof.
  revert highest. induction xs as [|x rest IH]; intros highest Hh; simpl.
  - intros _. split; [now apply leb_refl|constructor].
  - destruct (is_nan x) eqn:Hx; simpl; [easy|]. intros Hrest.
    destruct (is_pos_zero x && is_neg_zero highest) eqn:Hz.
    + apply andb_prop in Hz as [Hz1 Hz2].
      apply andb_prop in Hz1 as [Hz1 _]. apply andb_prop in Hz2 as [Hz2 _].
      destruct (IH x Hx Hrest) as [Hle Hall]. split; [|constructor]; auto.
      apply leb_trans with x; [now apply zeros_leb|exact Hle].
    + destruct (highest <? x)%float eqn:Hlt.
      * destruct (IH x Hx Hrest) as [Hle Hall]. split; [|constructor]; auto.
        apply leb_trans with x; [now apply ltb_leb|exact Hle].
      * destruct (IH highest Hh Hrest) as [Hle Hall]. split; [|constructor]; auto.
        apply leb_trans with highest; [now apply leb_total|exact Hle].
Qed.

Lemma Math_max_spec (x : number) (xs : list number) :
  maximum_of (Math_max (x :: xs)) (x :: xs).
Proof.
  unfold maximum_of, Math_max.
  assert (Hin : In (Math_max_from neg_infinity (x :: xs)) (x :: xs)).
  { destruct (Math_max_from_In neg_infinity (x :: xs)) as [He|?]; [|assumption].
    destruct (existsb is_nan (x :: xs)) eqn:Hn.
    - rewrite (Math_max_from_nan _ _ Hn) in He. discriminate.
    - destruct (Math_max_from_ge neg_infinity (x :: xs) eq_refl Hn) as [_ Hall].
      rewrite He in Hall |- *. inversion Hall as [|? ? Hx _]; subst.
      apply Bool.orb_false_elim in Hn as [Hnx _].
      left. apply Prim2SF_inj.
      revert Hx. rewrite leb_spec.
      pose proof (not_nan_Prim2SF x Hnx) as Hnn.
      change (Prim2SF neg_infinity) with (S754_infinity true).
      destruct (Prim2SF x) as [[]|[]| |[] mx ex]; simpl; easy. }
  split; [exact Hin|].
  destruct (existsb is_nan (x :: xs)) eqn:Hn.
  - split; [|easy]. rewrite (Math_max_from_nan _ _ Hn).
    apply Forall_forall. intros p _. apply ltb_nan_l.
  - destruct (Math_max_from_ge neg_infinity (x :: xs) eq_refl Hn) as [_ Hall].
    split; [|intros _; exact Hall].
    eapply Forall_impl; [exact Hall|]. intros p. apply leb_not_ltb.
Qed.

End MathMax.

Section PriceRangeAndChange.

Import Pages PageLogic.

(** X16.  [getHighestPrice] is [null] for no price row and otherwise the
    maximum of the prices of the rows: a price of the list that no price
    of the list is above. *)
Theorem getHighestPrice_is_maximum (currentPrices : list PriceData) :
  match currentPrices with
  | [] => getHighestPrice currentPrices = None
  | _ :: _ =>
      exists m, getHighestPrice currentPrices = Some m /\
                maximum_of m (map price currentPrices)
  end.
Proof.
  destruct currentPrices as [|p rest]; [reflexivity|].
  eexists. split; [reflexivity|]. apply (Math_max_spec (price p) (map price rest)).
Qed.

(** X17.  The price label of a product card on the home page.  Without
    price rows it is [Price unavailable].  Otherwise it shows one price
    exactly when the lowest and the highest price are equal, and then
    (no price being [NaN]) every row has that price; else it shows the
    lowest and the highest price, and the first is strictly below the
    second. *)
Theorem getPriceRange_one_price_or_a_span (prices : list PriceData) :
  match prices with
  | [] => getPriceRange prices = PriceUnavailable
  | _ :: _ =>
      match getPriceRange prices with
      | PriceUnavailable => False
      | SinglePrice p =>
          minimum_of p (map price prices) /\
          (existsb is_nan (map price prices) = false ->
           Forall (fun row => (price row =? p)%float = true) prices)
      | PriceSpan lowest highest =>
          minimum_of lowest (map price prices) /\
          maximum_of highest (map price prices) /\
          (existsb is_nan (map price prices) = false ->
           (lowest <? highest)%float = true)
      end
  end.
Proof.
  destruct prices as [|r rest]; [reflexivity|].
  unfold getPriceRange. change (length (r :: rest) =? 0)%nat with false. cbv iota.
  pose proof (Math_min_spec (price r) (map price rest)) as Hmin.
  pose proof (Math_max_spec (price r) (map price rest)) as Hmax.
  change (price r :: map price rest) with (map price (r :: rest)) in Hmin, Hmax.
  set (lo := Math_min (map price (r :: rest))) in *.
  set (hi := Math_max (map price (r :: rest))) in *.
  destruct (lo =? hi)%float eqn:Heq.
  - split; [exact Hmin|]. intros Hn.
    destruct Hmin as (_ & _ & Hlo), Hmax as (_ & _ & Hhi).
    specialize (Hlo Hn). specialize (Hhi Hn).
    rewrite Forall_forall in Hlo, Hhi. apply Forall_forall. intros row Hrow.
    assert (Hp : price row ∈ map price (r :: rest)).
    { apply list_elem_of_In, in_map. now apply list_elem_of_In. }
    specialize (Hlo _ Hp). specialize (Hhi _ Hp).
    rewrite FloatAxioms.eqb_spec in *. rewrite leb_spec in Hlo, Hhi.
    exact (SFleb_SFeqb_squeeze _ _ _ Hlo Hhi Heq).
  - split; [exact Hmin|]. split; [exact Hmax|]. intros Hn.
    destruct Hmin as (_ & _ & Hlo), Hmax as (_ & _ & Hhi).
    specialize (Hlo Hn). specialize (Hhi Hn).
    inversion Hlo as [|? ? Hlo1 _]; subst. inversion Hhi as [|? ? Hhi1 _]; subst.
    pose proof (leb_trans _ _ _ Hlo1 Hhi1) as Hle.
    rewrite ltb_spec. rewrite leb_spec in Hle. rewrite FloatAxioms.eqb_spec in Heq.
    now apply SFleb_not_SFeqb.
Qed.

(** X18.  [getPriceChange] needs two points of history, and reads only
    the first and the last: the points between them change nothing.  It
    answers [null] when either of the two prices is zero (or [NaN]), so
    it never divides by zero; otherwise the change of the last price
    against the first, in percent. *)
Theorem getPriceChange_first_against_last
    (first last : ChartData) (between : list ChartData) :
  getPriceChange [] = None /\
  getPriceChange [first] = None /\
  getPriceChange (first :: between ++ [last])
  = (if truthy (chart_price first) && truthy (chart_price last)
     then Some ((chart_price last - chart_price first) / chart_price first * 100)%float
     else None) /\
  getPriceChange (first :: between ++ [last]) = getPriceChange [first; last].
Proof.
  assert (Hgen : forall between,
             getPriceChange (first :: between ++ [last])
             = if truthy (chart_price first) && truthy (chart_price last)
               then Some ((chart_price last - chart_price first)
                          / chart_price first * 100)%float
               else None).
  { intros mid. unfold getPriceChange.
    assert (Hlen : (length (first :: mid ++ [last]) <? 2)%nat = false).
    { apply Nat.ltb_ge. simpl. rewrite length_app. simpl. lia. }
    rewrite Hlen.
    change (first :: mid ++ [last]) with ((first :: mid) ++ [last]).
    rewrite last_last.
    destruct (truthy (chart_price first)), (truthy (chart_price last)); reflexivity. }
  split; [reflexivity|]. split; [reflexivity|]. split; [apply Hgen|].
  rewrite Hgen. symmetry. apply (Hgen []).
Qed.

End PriceRangeAndChange.

(** ** The search page: filters and sorting *)

Section SearchFilters.

Import Pages PageLogic.
Context `{NumberParsing}.

Lemma filter_if {A : Type} (b : bool) (f : A -> bool) (l : list A) :
  (if b then List.filter f l else l) = List.filter (fun x => if b then f x else true) l.
Proof.
  destruct b; [reflexivity|]. induction l as [|x rest IH]; simpl; [reflexivity|].
  now rewrite <- IH.
Qed.

Lemma filter_filter_and {A : Type} (f g : A -> bool) (l : list A) :
  List.filter g (List.filter f l) = List.filter (fun x => f x && g x) l.
Proof.
  induction l as [|x rest IH]; simpl; [reflexivity|].
  destruct (f x); simpl; [destruct (g x)|]; now rewrite IH.
Qed.

Lemma filtered_before_sorting (st : SearchState) :
  (let filtered := products st in
   let filtered :=
     if (0 <? length (selectedStores st))%nat
     then List.filter (sold_at_selected_store st) filtered else filtered in
   let filtered :=
     if (0 <? length (selectedCategories st))%nat
     then List.filter (in_selected_category st) filtered else filtered in
   if negb (String.eqb (priceRange_min st) "") ||
      negb (String.eqb (priceRange_max st) "")
   then List.filter (in_price_range st) filtered else filtered)
  = List.filter (passes_filters st) (products st).
Proof.
  cbv zeta. rewrite !filter_if, !filter_filter_and.
  apply List.filter_ext. intros p. unfold passes_filters. now rewrite andb_assoc.
Qed.

Lemma getFilteredProducts_sorted_or_not (st : SearchState) :
  getFilteredProducts st
  = if String.eqb (sortBy st) "price_low" then
      sort_by (fun a b => (lowest_or st infinity a - lowest_or st infinity b)%float)
              (List.filter (passes_filters st) (products st))
    else if String.eqb (sortBy st) "price_high" then
      sort_by (fun a b => (lowest_or st 0 b - lowest_or st 0 a)%float)
              (List.filter (passes_filters st) (products st))
    else List.filter (passes_filters st) (products st).
Proof.
  unfold getFilteredProducts. cbv zeta.
  pose proof (filtered_before_sorting st) as Hf. cbv zeta in Hf. now rewrite Hf.
Qed.

Lemma in_price_range_has_price (st : SearchState) (p : Product) :
  in_price_range st p = true ->
  exists lowest,
    getLowestPrice (prices_of (productPrices st) (id p)) = Some lowest /\
    truthy lowest = true /\
    ((if String.eqb (priceRange_min st) "" then 0%float
      else parseFloat (priceRange_min st)) <=? lowest)%float = true /\
    (lowest <=? (if String.eqb (priceRange_max st) "" then infinity
                 else parseFloat (priceRange_max st)))%float = true.
Proof.
  unfold in_price_range.
  destruct (getLowestPrice _) as [lowest|]; [|discriminate].
  destruct (truthy lowest) eqn:Ht; simpl; [|discriminate].
  intros Hb. apply andb_prop in Hb as [Hlo Hhi]. exists lowest.
  split; [reflexivity|]. split; [exact Ht|].
  destruct (String.eqb (priceRange_min st) ""), (String.eqb (priceRange_max st) "");
    simpl in *; split; assumption.
Qed.

(** X19.  The products the search page lists are exactly the loaded
    products that pass every filter that is switched on; sorting by price
    only rearranges them, and any other sort order keeps the order in
    which they were loaded.  With no store and no category selected and
    no price bound entered, every loaded product is listed.  With a price
    bound entered, a product is listed only if it has a price row and its
    lowest price is not zero and lies within the bounds entered. *)
Theorem getFilteredProducts_lists_what_passes_the_filters (st : SearchState) :
  Permutation (getFilteredProducts st)
              (List.filter (passes_filters st) (products st)) /\
  (forall p, In p (getFilteredProducts st) <->
             In p (products st) /\ passes_filters st p = true) /\
  (sortBy st <> "price_low" -> sortBy st <> "price_high" ->
   getFilteredProducts st = List.filter (passes_filters st) (products st)) /\
  (selectedStores st = [] -> selectedCategories st = [] ->
   priceRange_min st = "" -> priceRange_max st = "" ->
   Permutation (getFilteredProducts st) (products st)) /\
  (priceRange_min st <> "" \/ priceRange_max st <> "" ->
   Forall (fun p =>
             exists lowest,
               getLowestPrice (prices_of (productPrices st) (id p)) = Some lowest /\
               truthy lowest = true /\
               ((if String.eqb (priceRange_min st) "" then 0%float
                 else parseFloat (priceRange_min st)) <=? lowest)%float = true /\
               (lowest <=? (if String.eqb (priceRange_max st) "" then infinity
                            else parseFloat (priceRange_max st)))%float = true)
          (getFilteredProducts st)).
Proof.
  assert (Hperm : Permutation (getFilteredProducts st)
                    (List.filter (passes_filters st) (products st))).
  { rewrite getFilteredProducts_sorted_or_not.
    destruct (String.eqb (sortBy st) "price_low");
      [apply sort_by_permutation|].
    destruct (String.eqb (sortBy st) "price_high");
      [apply sort_by_permutation|reflexivity]. }
  assert (Hin : forall p, In p (getFilteredProducts st) <->
                          In p (products st) /\ passes_filters st p = true).
  { intros p. rewrite <- filter_In. split; intros Hp.
    - exact (Permutation_in _ Hperm Hp).
    - exact (Permutation_in _ (Permutation_sym Hperm) Hp). }
  split; [exact Hperm|]. split; [exact Hin|]. split; [|split].
  - intros Hlow Hhigh. rewrite getFilteredProducts_sorted_or_not.
    apply String.eqb_neq in Hlow, Hhigh. now rewrite Hlow, Hhigh.
  - intros Hs Hc Hmin Hmax. rewrite Hperm.
    assert (Hall : forall p, passes_filters st p = true).
    { intros p. unfold passes_filters. now rewrite Hs, Hc, Hmin, Hmax. }
    clear -Hall. induction (products st) as [|p rest IH]; simpl; [reflexivity|].
    rewrite Hall. now constructor.
  - intros Hbound. apply Forall_forall. intros p Hp.
    apply list_elem_of_In, Hin in Hp as [_ Hpass].
    apply in_price_range_has_price.
    unfold passes_filters in Hpass.
    apply andb_prop in Hpass as [_ Hprice].
    destruct Hbound as [Hb|Hb]; apply String.eqb_neq in Hb; rewrite Hb in Hprice;
      simpl in Hprice; [exact Hprice|].
    now rewrite orb_true_r in Hprice.
Qed.

End SearchFilters.

(** ** The pages: checkboxes, favourites, the rows of a card, new alerts *)

Section PageState.

Import Pages PageLogic.

Lemma filter_not_equal_absent (item : string) (l : list string) :
  ~ In item l -> List.filter (fun c => negb (String.eqb c item)) l = l.
Proof.
  induction l as [|x rest IH]; simpl; [reflexivity|].
  intros Hno. destruct (String.eqb_spec x item) as [->|Hne]; simpl.
  - exfalso. apply Hno. now left.
  - rewrite IH; [reflexivity|]. intros Hin. apply Hno. now right.
Qed.

(** X20.  A filter checkbox.  Ticking a category or store puts it in the
    selection, unticking takes it out altogether, and neither touches
    the other selected items or their order; ticking an item that was
    not selected and unticking it again gives back the selection as it
    was. *)
Theorem toggle_selected_round_trip (item : string) (prev : list string) :
  In item (toggle_selected true item prev) /\
  ~ In item (toggle_selected false item prev) /\
  (forall checked other,
      other <> item ->
      (In other (toggle_selected checked item prev) <-> In other prev)) /\
  toggle_selected false item prev `sublist_of` prev /\
  (~ In item prev ->
   toggle_selected false item (toggle_selected true item prev) = prev).
Proof.
  unfold toggle_selected. split; [|split; [|split; [|split]]].
  - apply in_or_app. right. now left.
  - intros Hin. apply filter_In in Hin as [_ Hne].
    now rewrite String.eqb_refl in Hne.
  - intros [] other Hne.
    + rewrite in_app_iff. simpl. intuition congruence.
    + rewrite filter_In. apply String.eqb_neq in Hne. rewrite Hne. simpl. tauto.
  - apply list_filter_sublist.
  - intros Hno. rewrite List.filter_app. simpl. rewrite String.eqb_refl. simpl.
    rewrite app_nil_r. now apply filter_not_equal_absent.
Qed.

(** X21.  [removeFavorite].  When the delete succeeds, no favourite with
    that id is left on the page, the others stay as they were and in
    their order, and the user is told so; removing an id that is not on
    the page changes no favourite.  When the delete fails, the list of
    favourites is left as it is, the error is logged and an error toast
    is shown. *)
Theorem removeFavorite_drops_that_favourite_only
    (favoriteId : string) (st : FavoritesState) (error : exn) :
  let removed := removeFavorite None favoriteId st in
  let failed := removeFavorite (Some error) favoriteId st in
  Forall (fun fav => fav_id fav <> favoriteId) (favorites removed) /\
  (forall fav, fav_id fav <> favoriteId ->
               (In fav (favorites removed) <-> In fav (favorites st))) /\
  favorites removed `sublist_of` favorites st /\
  fav_toasts removed = fav_toasts st ++ [RemovedFromFavorites] /\
  fav_errors removed = fav_errors st /\
  (Forall (fun fav => fav_id fav <> favoriteId) (favorites st) ->
   favorites removed = favorites st) /\
  favorites (removeFavorite None favoriteId removed) = favorites removed /\
  favorites failed = favorites st /\
  fav_toasts failed = fav_toasts st ++ [RemoveFavoriteError] /\
  fav_errors failed = fav_errors st ++ [error].
Proof.
  intros removed failed. subst removed failed. simpl.
  assert (Hsame : forall l,
             Forall (fun fav => fav_id fav <> favoriteId) l ->
             List.filter (fun fav => negb (String.eqb (fav_id fav) favoriteId)) l = l).
  { induction l as [|fav rest IH]; simpl; [reflexivity|].
    intros Hall. inversion Hall as [|? ? Hne Hrest]; subst.
    apply String.eqb_neq in Hne. rewrite Hne. simpl. now rewrite IH. }
  assert (Hgone : Forall (fun fav => fav_id fav <> favoriteId)
                    (List.filter (fun fav => negb (String.eqb (fav_id fav) favoriteId))
                       (favorites st))).
  { apply Forall_forall. intros fav Hin.
    apply list_elem_of_In, filter_In in Hin as [_ Hne].
    apply String.eqb_neq. now destruct (String.eqb (fav_id fav) favoriteId). }
  repeat split; auto.
  - intros Hin. now apply filter_In in Hin.
  - intros Hin. apply filter_In. split; [exact Hin|].
    apply String.eqb_neq in H. now rewrite H.
  - apply list_filter_sublist.
Qed.



End PageState.

Section NewAlerts.

Import Pages.
Context `{NumberParsing}.



End NewAlerts.
